(** * A shallow embedding of the storefront application (application.py)

    The module-level configuration, the in-memory cart, the five route
    handlers and the library routine that sanitises upload file names are
    transcribed as executable definitions; the remote services (parameter
    store, database, object storage, queue) appear as an explicit
    per-request environment that may fail, and the process state is threaded
    through a small state-and-exception monad. *)

From Stdlib Require Import List ZArith QArith Bool Ascii String Lia.
From Stdlib Require Import DecimalString DecimalPos DecimalZ.
Import ListNotations.
Local Open Scope Z_scope.
Local Open Scope string_scope.

Set Implicit Arguments.

(* ------------------------------------------------------------------ *)
(** ** Python dictionaries with integer keys and integer values

    A Python [dict] keeps its entries in insertion order and assigning to
    an existing key keeps the position of that key, so the cart is an
    association list updated in place. *)

Module PyDict.

Definition t := list (Z * Z).

Definition empty : t := [].

(** [d.get(k)] *)
Fixpoint get (d : t) (k : Z) : option Z :=
  match d with
  | [] => None
  | (k', v) :: r => if Z.eqb k k' then Some v else get r k
  end.

(** [d.get(k, dflt)] *)
Definition get_default (d : t) (k : Z) (dflt : Z) : Z :=
  match get d k with
  | Some v => v
  | None => dflt
  end.

(** [d[k] = v] *)
Fixpoint set (d : t) (k : Z) (v : Z) : t :=
  match d with
  | [] => [(k, v)]
  | (k', v') :: r =>
      if Z.eqb k k' then (k', v) :: r else (k', v') :: set r k v
  end.

(** [d.items()] *)
Definition items (d : t) : list (Z * Z) := d.

(** [d.clear()] *)
Definition clear (d : t) : t := [].

(** [k in d] *)
Definition mem (d : t) (k : Z) : bool :=
  match get d k with Some _ => true | None => false end.

Definition keys (d : t) : list Z := map fst d.

(** The representation invariant of a dictionary: no key occurs twice. *)
Definition wf (d : t) : Prop := NoDup (keys d).

(** Every stored quantity is at least one. *)
Definition positive (d : t) : Prop := Forall (fun kv => 1 <= snd kv) d.

End PyDict.

(* ------------------------------------------------------------------ *)
(** ** Data model *)

(** A row of the [products] table as the [DictCursor] returns it.  The
    [image_url] column holds an object-storage key; [None] stands for SQL
    NULL or a missing column, both of which [p.get("image_url")] maps to
    [None].  The [price] column is read as a Python number, a
    [decimal.Decimal] or a [float] according to the type of the column; the
    field holds the value of that number.  What the program computes with
    it is the arithmetic of that number type, which rounds; it is part of
    the surroundings of a request (see [Env]). *)
Record Product := mkProduct {
  id : Z;
  name : string;
  price : Q;
  image_url : option string
}.

(** Python truthiness of an optional string: [None] and [""] are falsy. *)
Definition truthy (o : option string) : bool :=
  match o with
  | None => false
  | Some s => negb (String.eqb s "")
  end.

(** The multipart file part of a checkout submission.  Its name is a
    Python [str], a sequence of Unicode code points. *)
Record FileStorage := mkFile {
  filename : list N;
  stream : string
}.

(** [request.form] and [request.files] of a checkout POST. *)
Record Form := mkForm {
  form_name : option string;
  form_email : option string;
  files_image : option FileStorage
}.

(** The process holds one mutable dictionary object, the one bound to the
    module-level name [cart].  Other values may hold a reference to it. *)
Inductive pyref := CartObject.

(** [order = {"name": name, "email": email, "items": cart}]: the third
    field stores the dictionary object itself, not a copy of it. *)
Record Order := mkOrder {
  order_name : option string;
  order_email : option string;
  order_items : pyref
}.

(** JSON values, as far as [json.dumps(order)] produces them. *)
#[local] Unset Elimination Schemes.
Inductive json :=
| JNull
| JString (s : string)
| JInt (z : Z)
| JObject (members : list (string * json)).
#[local] Set Elimination Schemes.

(* ------------------------------------------------------------------ *)
(** ** Configuration read at import time *)

Definition Environ := list (string * string).

(** [os.environ.get(k)] *)
Fixpoint environ_get (e : Environ) (k : string) : option string :=
  match e with
  | [] => None
  | (k', v) :: r => if String.eqb k k' then Some v else environ_get r k
  end.

(** [os.environ.get(k, dflt)] *)
Definition environ_get_default (e : Environ) (k dflt : string) : string :=
  match environ_get e k with
  | Some v => v
  | None => dflt
  end.

Record Config := mkConfig {
  REGION : string;
  BUCKET : string;
  SQS_URL : option string
}.

Inductive service := ParameterStoreOrDatabase | ObjectStorage | Queue.

Inductive exn :=
| StartupError (msg : string)
| RemoteServiceError (s : service).

Inductive outcome (A : Type) :=
| Ok (a : A)
| Raise (e : exn).
Arguments Ok {A} a.
Arguments Raise {A} e.

Definition missing_bucket_message : string :=
  "❌ Environment variable S3_BUCKET is missing!".

(** Lines 13-19: the three reads and the early validation. *)
Definition load_config (e : Environ) : outcome Config :=
  let region := environ_get_default e "REGION" "ap-south-1" in
  let bucket := environ_get e "S3_BUCKET" in
  let sqs_url := environ_get e "SQS_QUEUE_URL" in
  if negb (truthy bucket) then Raise (StartupError missing_bucket_message)
  else
    match bucket with
    | Some b => Ok (mkConfig region b sqs_url)
    | None => Raise (StartupError missing_bucket_message)
    end.

(* ------------------------------------------------------------------ *)
(** ** Decimal arithmetic

    [decimal.Decimal] under the default context ([prec=28],
    [ROUND_HALF_EVEN]): the result of an operation is the exact result
    rounded to 28 significant digits, ties going to the even neighbour.  A
    number is represented by its value; a value that needs no rounding is
    returned as it is.  (Exponents beyond the context's [Emax] and [Emin],
    where the library raises or goes subnormal, are not represented.) *)

Module PyDecimal.

Definition prec : Z := 28.

(** The number of decimal digits of a positive integer. *)
Definition digits10 (p : positive) : Z :=
  Z.of_nat (Decimal.nb_digits (Pos.to_uint p)).

(** The exponent of the leading digit of [a/b]: the [e] with
    [10^e <= a/b < 10^(e+1)]. *)
Definition adjusted (a b : positive) : Z :=
  let e0 := digits10 a - digits10 b in
  if (0 <=? e0)%Z
  then (if (Z.pos b * 10 ^ e0 <=? Z.pos a)%Z then e0 else e0 - 1)
  else (if (Z.pos b <=? Z.pos a * 10 ^ (- e0))%Z then e0 else e0 - 1).

(** The integer nearest to [num/den], ties to even ([0 <= num], [0 < den]). *)
Definition round_half_even (num den : Z) : Z :=
  let q := num / den in
  let r := num mod den in
  match (2 * r ?= den)%Z with
  | Lt => q
  | Gt => q + 1
  | Eq => if Z.even q then q else q + 1
  end.

(** [a/b] rounded to [prec] significant digits. *)
Definition round_positive (a b : positive) : Q :=
  let s := prec - 1 - adjusted a b in
  let num := if (0 <=? s)%Z then Z.pos a * 10 ^ s else Z.pos a in
  let den := if (0 <=? s)%Z then Z.pos b else Z.pos b * 10 ^ (- s) in
  if (num mod den =? 0)%Z then Z.pos a # b
  else
    let m := round_half_even num den in
    if (0 <=? s)%Z then m # Z.to_pos (10 ^ s) else (m * 10 ^ (- s)) # 1.

Definition round (x : Q) : Q :=
  match Qnum x with
  | 0 => x
  | Z.pos a => round_positive a (Qden x)
  | Z.neg a => Qopp (round_positive a (Qden x))
  end.

(** [x * n] for a decimal [x] and an integer [n] *)
Definition mul (x : Q) (n : Z) : Q := round (x * inject_Z n)%Q.

(** [x + y] for decimals, and for the integer [0] and a decimal *)
Definition add (x y : Q) : Q := round (x + y)%Q.

End PyDecimal.

(* ------------------------------------------------------------------ *)
(** ** Process state, remote services and the handler monad *)

(** What one process can observe and change: the content of the cart
    object, the objects it has written to storage (bucket, key, body) and
    the messages it has put on the queue (queue URL, body). *)
Record State := mkState {
  cart : PyDict.t;
  bucket_objects : list (string * string * string);
  queue_messages : list (string * json)
}.

Definition initial_state : State := mkState PyDict.empty [] [].

Inductive os := posix | nt.

(** The surroundings of one request: the Python runtime ([os.name] and
    the Unicode normaliser), the rows currently in the [products] table
    ([None] when the parameter store or the database raises), whether the
    storage and queue calls go through, and the link signer.

    Three more things are decided outside the source file and are taken
    as they come.  The repository pins no release of Werkzeug, and the
    releases differ in which of the reserved Windows device names they
    list: [werkzeug_lists] tells, of a reserved name, whether the installed
    release lists it.  The type of the [price] column decides the
    arithmetic of lines 128 and 130: [number_mul x n] is the value of
    [x * n] for a price [x] and an integer [n], and [number_add t x] the
    value of [t + x], as the number type of the column computes them
    (for [decimal.Decimal], see [PyDecimal]). *)
Record Env := mkEnv {
  os_name : os;
  unicodedata_normalize_NFKD : list N -> list N;
  products_table : option (list Product);
  s3_reachable : bool;
  sqs_reachable : bool;
  generate_presigned_url : string -> string -> Z -> string;
  werkzeug_lists : string -> bool;
  number_mul : Q -> Z -> Q;
  number_add : Q -> Q -> Q
}.

Definition M (A : Type) : Type := State -> outcome A * State.

Definition ret {A} (a : A) : M A := fun st => (Ok a, st).

Definition bind {A B} (m : M A) (k : A -> M B) : M B :=
  fun st =>
    match m st with
    | (Ok a, st') => k a st'
    | (Raise e, st') => (Raise e, st')
    end.

Definition raise {A} (e : exn) : M A := fun st => (Raise e, st).

Definition read_cart : M PyDict.t := fun st => (Ok (cart st), st).

Definition write_cart (d : PyDict.t) : M unit :=
  fun st => (Ok tt, mkState d (bucket_objects st) (queue_messages st)).

Declare Scope handler_scope.
Delimit Scope handler_scope with handler.
Notation "x <- m ;; k" := (bind m (fun x => k))
  (at level 61, m at next level, right associativity) : handler_scope.
Notation "m ;;; k" := (bind m (fun _ => k))
  (at level 61, right associativity) : handler_scope.
Local Open Scope handler_scope.

(** Reading through a reference. *)
Definition deref (st : State) (r : pyref) : PyDict.t :=
  match r with CartObject => cart st end.

(* ------------------------------------------------------------------ *)
(** ** Database access (lines 52-66) *)

Definition get_all_products (env : Env) : M (list Product) :=
  match products_table env with
  | Some rows => ret rows
  | None => raise (RemoteServiceError ParameterStoreOrDatabase)
  end.

(** [SELECT * FROM products WHERE id=%s] followed by [fetchone()]. *)
Definition get_product (env : Env) (pid : Z) : M (option Product) :=
  match products_table env with
  | Some rows => ret (find (fun r => Z.eqb (id r) pid) rows)
  | None => raise (RemoteServiceError ParameterStoreOrDatabase)
  end.

(* ------------------------------------------------------------------ *)
(** ** Links (lines 71-76) *)

Definition presigned_get_url (cfg : Config) (env : Env) (key : string) : string :=
  generate_presigned_url env (BUCKET cfg) key 3600.

(** [url_for("static", filename="placeholder.png")] *)
Definition placeholder : string := "/static/placeholder.png".

Definition set_image_url (p : Product) (u : string) : Product :=
  mkProduct (id p) (name p) (price p) (Some u).

(** [p["image_url"]] where the key is known to be present *)
Definition image_key (p : Product) : string :=
  match image_url p with Some k => k | None => "" end.

(* ------------------------------------------------------------------ *)
(** ** [werkzeug.utils.secure_filename]

    The routine the checkout handler calls on the submitted file name,
    step by step: NFKD normalisation, ASCII encoding that drops what does
    not fit, separators turned into spaces, whitespace runs joined by an
    underscore, removal of every character outside [[A-Za-z0-9_.-]],
    stripping of leading and trailing dots and underscores, and the guard
    against Windows device names. *)

Module Werkzeug.

Local Open Scope char_scope.

(** [s.encode("ascii", "ignore").decode("ascii")] *)
Definition encode_ascii_ignore (s : list N) : list ascii :=
  map ascii_of_N (filter (fun c => N.ltb c 128) s).

(** The character with code 92, the separator of Windows paths. *)
Definition backslash : ascii :=
  Ascii false false true true true false true false.

Definition os_sep (o : os) : ascii :=
  match o with posix => "/" | nt => backslash end.

Definition os_altsep (o : os) : option ascii :=
  match o with posix => None | nt => Some "/" end.

(** [s.replace(sep, " ")] for a one-character separator *)
Definition replace_char (sep : ascii) (s : list ascii) : list ascii :=
  map (fun c => if Ascii.eqb c sep then " " else c) s.

(** Whitespace in the sense of [str.split()], restricted to ASCII:
    tab, line feed, vertical tab, form feed, carriage return, the four
    separators 0x1c-0x1f and the space. *)
Definition isspace (c : ascii) : bool :=
  let n := N_of_ascii c in
  ((9 <=? n) && (n <=? 13) || (28 <=? n) && (n <=? 32))%N.

(** [s.split()]: the maximal runs of non-whitespace characters.  [cur] is
    the run being read. *)
Fixpoint split_whitespace (cur : list ascii) (s : list ascii)
  : list (list ascii) :=
  match s with
  | [] => match cur with [] => [] | _ => [cur] end
  | c :: r =>
      if isspace c then
        match cur with
        | [] => split_whitespace [] r
        | _ => cur :: split_whitespace [] r
        end
      else split_whitespace (cur ++ [c]) r
  end.

(** ["_".join(words)] *)
Fixpoint join (sep : list ascii) (words : list (list ascii)) : list ascii :=
  match words with
  | [] => []
  | [w] => w
  | w :: ws => w ++ sep ++ join sep ws
  end.

Definition in_range (lo hi c : ascii) : bool :=
  ((N_of_ascii lo <=? N_of_ascii c) && (N_of_ascii c <=? N_of_ascii hi))%N.

(** The characters kept by [_filename_ascii_strip_re], whose pattern is
    the complement of [A-Za-z0-9_.-]. *)
Definition filename_char (c : ascii) : bool :=
  in_range "A" "Z" c || in_range "a" "z" c || in_range "0" "9" c
  || Ascii.eqb c "_" || Ascii.eqb c "." || Ascii.eqb c "-".

Definition is_dot_or_underscore (c : ascii) : bool :=
  Ascii.eqb c "." || Ascii.eqb c "_".

Fixpoint lstrip (s : list ascii) : list ascii :=
  match s with
  | [] => []
  | c :: r => if is_dot_or_underscore c then lstrip r else s
  end.

(** [s.strip("._")] *)
Definition strip (s : list ascii) : list ascii :=
  rev (lstrip (rev (lstrip s))).

(** [s.split(".")[0]] *)
Fixpoint before_first_dot (s : list ascii) : list ascii :=
  match s with
  | [] => []
  | c :: r => if Ascii.eqb c "." then [] else c :: before_first_dot r
  end.

(** [s.upper()] on ASCII text *)
Definition upper_char (c : ascii) : ascii :=
  if in_range "a" "z" c then ascii_of_N (N_of_ascii c - 32) else c.

Definition upper (s : list ascii) : list ascii := map upper_char s.

Definition digits : list string :=
  ["0"; "1"; "2"; "3"; "4"; "5"; "6"; "7"; "8"; "9"]%string.

(** The reserved device names a release of the library may list:
    CON, PRN, AUX, NUL and COM and LPT followed by a digit. *)
Definition windows_device_files : list string :=
  List.app ["CON"; "PRN"; "AUX"; "NUL"]%string
    (List.app (map (String.append "COM") digits)
              (map (String.append "LPT") digits)).

Definition is_device_file (s : list ascii) : bool :=
  existsb (String.eqb (string_of_list_ascii (upper (before_first_dot s))))
          windows_device_files.

(** [_windows_device_files] of the installed release: those of the
    reserved names above that the release lists.  (A listed name with a
    character outside the safe set can never be met by the test below and
    is left out.) *)
Definition installed_device_files (env : Env) : list string :=
  filter (werkzeug_lists env) windows_device_files.

(** [filename.split(".")[0].upper() in _windows_device_files] *)
Definition is_listed_device_file (env : Env) (s : list ascii) : bool :=
  existsb (String.eqb (string_of_list_ascii (upper (before_first_dot s))))
          (installed_device_files env).

Definition secure_filename (env : Env) (filename : list N) : list ascii :=
  let filename := unicodedata_normalize_NFKD env filename in
  let filename := encode_ascii_ignore filename in
  let filename := replace_char (os_sep (os_name env)) filename in
  let filename :=
    match os_altsep (os_name env) with
    | Some sep => replace_char sep filename
    | None => filename
    end in
  let filename :=
    strip (filter filename_char (join ["_"] (split_whitespace [] filename))) in
  match os_name env, filename with
  | nt, _ :: _ =>
      if is_listed_device_file env filename then "_" :: filename else filename
  | _, _ => filename
  end.

End Werkzeug.

(* ------------------------------------------------------------------ *)
(** ** What a handler returns *)

(** One line of the cart page: [{"product": p, "qty": qty, "subtotal": subtotal}] *)
Record CartItem := mkItem {
  product : Product;
  qty : Z;
  subtotal : Q
}.

(** The order as a template sees it: the [items] reference is followed
    when the template is rendered. *)
Record OrderView := mkOrderView {
  view_name : option string;
  view_email : option string;
  view_items : PyDict.t
}.

(** The template and the values it is rendered with. *)
Inductive page :=
| index_html (products : list Product)
| product_html (product : Product)
| cart_html (items : list CartItem) (total : Q)
| checkout_html
| checkout_html_success (order : OrderView) (file_url : option string)
                        (sqs_sent : bool).

Inductive response :=
| Rendered (p : page)
| Body (text : string) (status : Z)
| Redirect (location : string).

(** [render_template] runs the template at the call, so references held
    by the context are read in the state of that moment. *)
Definition render_order (o : Order) : M OrderView :=
  fun st =>
    (Ok (mkOrderView (order_name o) (order_email o) (deref st (order_items o))),
     st).

(* ------------------------------------------------------------------ *)
(** ** Route handlers *)

(** The branch shared by the listing and the detail page
    (lines 91-96 and 107-110). *)
Definition link_or_placeholder (cfg : Config) (env : Env) (p : Product)
  : Product :=
  if truthy (image_url p)
  then set_image_url p (presigned_get_url cfg env (image_key p))
  else set_image_url p placeholder.

(** [GET /] *)
Definition home (cfg : Config) (env : Env) : M response :=
  products <- get_all_products env ;;
  ret (Rendered (index_html (map (link_or_placeholder cfg env) products))).

(** [GET /product/<int:pid>] *)
Definition product_page (cfg : Config) (env : Env) (pid : Z) : M response :=
  p <- get_product env pid ;;
  match p with
  | None => ret (Body "Product not found" 404)
  | Some p => ret (Rendered (product_html (link_or_placeholder cfg env p)))
  end.

(** The body of the loop of [view_cart] (lines 120-130), over the
    entries still to visit. *)
Fixpoint view_cart_loop (cfg : Config) (env : Env) (entries : list (Z * Z))
         (items : list CartItem) (total : Q) : M (list CartItem * Q) :=
  match entries with
  | [] => ret (items, total)
  | (pid, qty) :: rest =>
      p <- get_product env pid ;;
      match p with
      | None => view_cart_loop cfg env rest items total
      | Some p =>
          let p :=
            if truthy (image_url p)
            then set_image_url p (presigned_get_url cfg env (image_key p))
            else p in
          let subtotal := number_mul env (price p) qty in
          view_cart_loop cfg env rest
                         (List.app items [mkItem p qty subtotal])
                         (number_add env total subtotal)
      end
  end.

(** [GET /cart] *)
Definition view_cart (cfg : Config) (env : Env) : M response :=
  c <- read_cart ;;
  r <- view_cart_loop cfg env (PyDict.items c) [] 0%Q ;;
  ret (Rendered (cart_html (fst r) (snd r))).

(** [POST /cart/add/<int:pid>] *)
Definition add_to_cart (pid : Z) : M response :=
  c <- read_cart ;;
  write_cart (PyDict.set c pid (PyDict.get_default c pid 0 + 1)) ;;;
  ret (Redirect "/cart").

(** [s3_client().upload_fileobj(f, BUCKET, key)] *)
Definition upload_fileobj (env : Env) (f : FileStorage) (bucket key : string)
  : M unit :=
  fun st =>
    if s3_reachable env
    then (Ok tt,
          mkState (cart st)
                  (List.app (bucket_objects st) [(bucket, key, stream f)])
                  (queue_messages st))
    else (Raise (RemoteServiceError ObjectStorage), st).

(** [sqs_client()]: a client only when [SQS_URL] is truthy; the client is
    represented by the queue URL it will be used with. *)
Definition sqs_client (cfg : Config) : option string :=
  if truthy (SQS_URL cfg) then SQS_URL cfg else None.

(** [sqs.send_message(QueueUrl=url, MessageBody=body)] *)
Definition send_message (env : Env) (url : string) (body : json) : M unit :=
  fun st =>
    if sqs_reachable env
    then (Ok tt,
          mkState (cart st) (bucket_objects st)
                  (List.app (queue_messages st) [(url, body)]))
    else (Raise (RemoteServiceError Queue), st).

Definition json_of_optional_string (o : option string) : json :=
  match o with
  | Some s => JString s
  | None => JNull
  end.

(** Integer keys of a dictionary are written as their decimal text. *)
Definition json_key (k : Z) : string := NilZero.string_of_int (Z.to_int k).

Definition json_of_dict (d : PyDict.t) : json :=
  JObject (map (fun kv => (json_key (fst kv), JInt (snd kv))) (PyDict.items d)).

(** [json.dumps(order)], up to the concrete text: the value written. *)
Definition json_dumps (o : Order) : M json :=
  fun st =>
    (Ok (JObject [("name", json_of_optional_string (order_name o));
                  ("email", json_of_optional_string (order_email o));
                  ("items", json_of_dict (deref st (order_items o)))]),
     st).

(** [cart.clear()] *)
Definition cart_clear : M unit :=
  c <- read_cart ;;
  write_cart (PyDict.clear c).

(** The object-storage key of an attachment (lines 166-167). *)
Definition upload_key (env : Env) (f : FileStorage) : string :=
  "uploads/" ++ string_of_list_ascii (Werkzeug.secure_filename env (filename f)).

(** Python truthiness of [f.filename] *)
Definition nonempty (s : list N) : bool :=
  match s with [] => false | _ => true end.

(** [POST /checkout] (lines 148-197) *)
Definition checkout_post (cfg : Config) (env : Env) (form : Form) : M response :=
  let name := form_name form in
  let email := form_email form in
  let order := mkOrder name email CartObject in
  uploaded_file_url <-
    match files_image form with
    | Some f =>
        if nonempty (filename f) then
          let key := upload_key env f in
          upload_fileobj env f (BUCKET cfg) key ;;;
          ret (Some (presigned_get_url cfg env key))
        else ret None
    | None => ret None
    end ;;
  sqs_sent <-
    match sqs_client cfg with
    | Some url =>
        body <- json_dumps order ;;
        send_message env url body ;;;
        ret true
    | None => ret false
    end ;;
  cart_clear ;;;
  o <- render_order order ;;
  ret (Rendered (checkout_html_success o uploaded_file_url sqs_sent)).

(** [GET /checkout] (lines 145-146) *)
Definition checkout_get : M response := ret (Rendered checkout_html).

(** [checkout()]: the branch on [request.method].  [None] stands for a
    GET; any other method comes with the form and files of its body, which
    are empty when it has none. *)
Definition checkout (cfg : Config) (env : Env) (submitted : option Form)
  : M response :=
  match submitted with
  | None => checkout_get
  | Some form => checkout_post cfg env form
  end.

(** The requests the routes answer.  A rule that allows GET allows HEAD
    as well, and a HEAD request runs the same function as a GET. *)
Inductive request :=
| GET_home
| GET_product (pid : Z)
| GET_cart
| POST_cart_add (pid : Z)
| GET_checkout
| POST_checkout (form : Form)
| HEAD_home
| HEAD_product (pid : Z)
| HEAD_cart
| HEAD_checkout.

(** [request.form] and [request.files] of a request without a body. *)
Definition no_form : Form := mkForm None None None.

(** The routing table.  [checkout] returns the form only when
    [request.method == "GET"] (line 145): a HEAD request to /checkout goes
    down the path of a submission, with no form field and no file. *)
Definition handle (cfg : Config) (env : Env) (r : request) : M response :=
  match r with
  | GET_home | HEAD_home => home cfg env
  | GET_product pid | HEAD_product pid => product_page cfg env pid
  | GET_cart | HEAD_cart => view_cart cfg env
  | POST_cart_add pid => add_to_cart pid
  | GET_checkout => checkout cfg env None
  | POST_checkout form => checkout cfg env (Some form)
  | HEAD_checkout => checkout cfg env (Some no_form)
  end.


Fixpoint run (cfg : Config) (trace : list (Env * request)) (st : State) : State :=
  match trace with
  | [] => st
  | (env, r) :: rest => run cfg rest (snd (handle cfg env r st))
  end.

(* ------------------------------------------------------------------ *)
(** ** Vocabulary of the properties *)

(** Whether the submission carries a file that the handler will upload. *)
Definition upload_attempted (form : Form) : bool :=
  match files_image form with
  | Some f => nonempty (filename f)
  | None => false
  end.

(** Reading a message body back, as a consumer of the queue would: the
    member of an object by its name, an integer from the decimal text of a
    key, a cart from an object whose members are integers under such keys,
    and an order from an object with the members name, email and items. *)
Fixpoint read_member (name : string) (members : list (string * json))
  : option json :=
  match members with
  | [] => None
  | (n, v) :: r => if String.eqb n name then Some v else read_member name r
  end.

Definition read_key (s : string) : option Z :=
  option_map Z.of_int (NilZero.int_of_string s).

Fixpoint read_entries (members : list (string * json)) : option PyDict.t :=
  match members with
  | [] => Some []
  | (k, JInt v) :: r =>
      match read_key k, read_entries r with
      | Some k', Some d => Some ((k', v) :: d)
      | _, _ => None
      end
  | _ :: _ => None
  end.

Definition read_items (j : json) : option PyDict.t :=
  match j with
  | JObject members => read_entries members
  | _ => None
  end.

Definition read_optional_string (j : json) : option (option string) :=
  match j with
  | JNull => Some None
  | JString s => Some (Some s)
  | _ => None
  end.

Definition read_order (body : json)
  : option (option string * option string * PyDict.t) :=
  match body with
  | JObject members =>
      match read_member "name" members, read_member "email" members,
            read_member "items" members with
      | Some n, Some e, Some i =>
          match read_optional_string n, read_optional_string e, read_items i with
          | Some n', Some e', Some d => Some (n', e', d)
          | _, _, _ => None
          end
      | _, _, _ => None
      end
  | _ => None
  end.

(** The message body for an order placed while the cart held [d]. *)
Definition order_message (form : Form) (d : PyDict.t) : json :=
  JObject [("name", json_of_optional_string (form_name form));
           ("email", json_of_optional_string (form_email form));
           ("items", json_of_dict d)].



(** [s.split(sep)] for a one-character separator *)
Fixpoint split_on (sep : ascii) (s : list ascii) : list (list ascii) :=
  match s with
  | [] => [[]]
  | c :: r =>
      if Ascii.eqb c sep then [] :: split_on sep r
      else match split_on sep r with
           | [] => [[c]]
           | w :: ws => (c :: w) :: ws
           end
  end.

(** The segments of an object key read as a path. *)
Definition path_segments (key : string) : list string :=
  map string_of_list_ascii (split_on "/"%char (list_ascii_of_string key)).

Definition is_separator (c : ascii) : bool :=
  Ascii.eqb c "/"%char || Ascii.eqb c Werkzeug.backslash.

(** A key under the upload prefix whose remainder is a single path
    segment: no separator in it, and not a reference to the current or the
    parent directory. *)
Definition safe_upload_key (key : string) : Prop :=
  exists fn,
    key = "uploads/" ++ fn
    /\ forallb (fun c => negb (is_separator c)) (list_ascii_of_string fn) = true
    /\ path_segments key = ["uploads"; fn]
    /\ fn <> ".." /\ fn <> ".".

(* ------------------------------------------------------------------ *)
(** ** The parameter store and the database, call by call (lines 24-66)

    The handlers above see the database as a table that is there or not.
    Here the same two accessors are followed one remote call at a time:
    the four parameter fetches of [get_db_connection], the connection, the
    query and the closing of the connection, each written to a log in the
    order in which it is made. *)

Module Remote.

Inductive query :=
| SelectAllProducts
| SelectProductById (pid : Z).

Inductive call :=
| GetParameter (name : string)
| Connect (host user password database : string)
| Execute (q : query)
| CloseConnection.

Inductive failure :=
| ParameterNotFound (name : string)
| ConnectionFailed
| QueryFailed (q : query).

(** The two services as they stand during a request: the parameters the
    store holds, which connections the database server accepts, the rows
    of the [products] table and which queries go through. *)
Record Backend := mkBackend {
  parameters : list (string * string);
  accepts : string -> string -> string -> string -> bool;
  rows : list Product;
  executes : query -> bool
}.

Definition R (A : Type) : Type := list call -> (A + failure) * list call.

Definition ret {A} (a : A) : R A := fun log => (inl a, log).

Definition bind {A B} (m : R A) (k : A -> R B) : R B :=
  fun log =>
    match m log with
    | (inl a, log') => k a log'
    | (inr e, log') => (inr e, log')
    end.

Definition fail {A} (e : failure) : R A := fun log => (inr e, log).

Definition emit (c : call) : R unit := fun log => (inl tt, List.app log [c]).

(** [get_parameter(name)] (lines 36-38) *)
Definition get_parameter (b : Backend) (name : string) : R string :=
  bind (emit (GetParameter name)) (fun _ =>
  match environ_get (parameters b) name with
  | Some v => ret v
  | None => fail (ParameterNotFound name)
  end).

(** [get_db_connection()] (lines 43-50): the keyword arguments are
    evaluated from left to right, then the connection is made. *)
Definition get_db_connection (b : Backend) : R unit :=
  bind (get_parameter b "/ecommerce/db/host") (fun host =>
  bind (get_parameter b "/ecommerce/db/username") (fun user =>
  bind (get_parameter b "/ecommerce/db/password") (fun password =>
  bind (get_parameter b "/ecommerce/db/databasename") (fun database =>
  bind (emit (Connect host user password database)) (fun _ =>
  if accepts b host user password database then ret tt
  else fail ConnectionFailed))))).

(** [cur.execute(...)] *)
Definition execute (b : Backend) (q : query) : R unit :=
  bind (emit (Execute q)) (fun _ =>
  if executes b q then ret tt else fail (QueryFailed q)).

(** [get_all_products()] (lines 52-58) *)
Definition get_all_products (b : Backend) : R (list Product) :=
  bind (get_db_connection b) (fun _ =>
  bind (execute b SelectAllProducts) (fun _ =>
  let rows := rows b in
  bind (emit CloseConnection) (fun _ =>
  ret rows))).

(** [get_product(pid)] (lines 60-66) *)
Definition get_product (b : Backend) (pid : Z) : R (option Product) :=
  bind (get_db_connection b) (fun _ =>
  bind (execute b (SelectProductById pid)) (fun _ =>
  let row := find (fun r => Z.eqb (id r) pid) (rows b) in
  bind (emit CloseConnection) (fun _ =>
  ret row))).

Definition db_parameter_names : list string :=
  ["/ecommerce/db/host"; "/ecommerce/db/username";
   "/ecommerce/db/password"; "/ecommerce/db/databasename"].

(** Whether a query gets its answer: the four parameters are there, the
    server accepts the connection they describe and the query goes through. *)
Definition answers (b : Backend) (q : query) : bool :=
  match environ_get (parameters b) "/ecommerce/db/host",
        environ_get (parameters b) "/ecommerce/db/username",
        environ_get (parameters b) "/ecommerce/db/password",
        environ_get (parameters b) "/ecommerce/db/databasename" with
  | Some h, Some u, Some p, Some d => accepts b h u p d && executes b q
  | _, _, _, _ => false
  end.

End Remote.

(** What a handler that only asks for single products sees of a backend. *)
Definition products_table_of (b : Remote.Backend) (q : Remote.query)
  : option (list Product) :=
  if Remote.answers b q then Some (Remote.rows b) else None.

(* ------------------------------------------------------------------ *)
(** ** More vocabulary *)

(** The object a checkout submission writes to storage, if any. *)
Definition attachment (cfg : Config) (env : Env) (form : Form)
  : list (string * string * string) :=
  match files_image form with
  | Some f =>
      if nonempty (filename f)
      then [(BUCKET cfg, upload_key env f, stream f)]
      else []
  | None => []
  end.

(** The message a checkout submission puts on the queue, if any, when the
    cart holds [d]. *)
Definition outgoing (cfg : Config) (form : Form) (d : PyDict.t)
  : list (string * json) :=
  match sqs_client cfg with
  | Some url => [(url, order_message form d)]
  | None => []
  end.

(** The requests that are GETs. *)
Definition is_get (r : request) : bool :=
  match r with
  | GET_home | GET_product _ | GET_cart | GET_checkout => true
  | _ => false
  end.

(** The requests that go down the submission path of [checkout]: every
    request to /checkout that is not a GET. *)
Definition is_checkout_submission (r : request) : bool :=
  match r with
  | POST_checkout _ | HEAD_checkout => true
  | _ => false
  end.

(** The checkout submissions of a sequence of requests. *)
Definition checkout_submissions (trace : list (Env * request)) : nat :=
  List.length (filter (fun er => is_checkout_submission (snd er)) trace).

(** Objects and messages that stay within the configuration: every object
    is in the configured bucket under a safe upload key, every message is
    addressed to the configured, non-empty queue URL, and there are at most
    [n] of each. *)
Definition confined_effects (cfg : Config) (n : nat)
           (objs : list (string * string * string)) (msgs : list (string * json))
  : Prop :=
  Forall (fun o => fst (fst o) = BUCKET cfg /\ safe_upload_key (snd (fst o))) objs
  /\ Forall (fun m => SQS_URL cfg = Some (fst m) /\ fst m <> "") msgs
  /\ (List.length objs <= n)%nat
  /\ (List.length msgs <= n)%nat.

(** [n] additions of the same product, one request after the other. *)
Fixpoint add_times (n : nat) (pid : Z) (st : State) : State :=
  match n with
  | O => st
  | S n' => add_times n' pid (snd (add_to_cart pid st))
  end.


(** What the listing and the detail page may change in a row: the image
    reference, which becomes the signed link of the row's key when there
    is one and the placeholder otherwise. *)
Definition shown_as (cfg : Config) (env : Env) (row shown : Product) : Prop :=
  id shown = id row /\ name shown = name row /\ price shown = price row
  /\ image_url shown
     = Some (if truthy (image_url row)
             then generate_presigned_url env (BUCKET cfg) (image_key row) 3600
             else placeholder).

(** The text a sanitised name is compared with: a name that is already
    made of safe characters and has no dot or underscore at either end. *)
Definition already_safe (s : list ascii) : bool :=
  forallb Werkzeug.filename_char s
  && match s with
     | [] => true
     | c :: _ => negb (Werkzeug.is_dot_or_underscore c)
     end
  && match rev s with
     | [] => true
     | c :: _ => negb (Werkzeug.is_dot_or_underscore c)
     end.

(** Characters that leave nothing behind: whitespace, dots, underscores
    and everything outside the safe set (the separators among them). *)
Definition vanishing (c : ascii) : bool :=
  Werkzeug.isspace c || Werkzeug.is_dot_or_underscore c
  || negb (Werkzeug.filename_char c).

(* ------------------------------------------------------------------ *)
(** ** Sample data *)

(** Conversions used to write concrete inputs. *)
Definition pystr (s : string) : list N := map N_of_ascii (list_ascii_of_string s).

(** Surroundings in which every service answers, the release of
    Werkzeug lists all the reserved names and prices are decimals. *)
Definition example_env (o : os) (table : list Product) : Env :=
  mkEnv o (fun s => s) (Some table) true true
        (fun b k _ => "https://" ++ b ++ "/" ++ k ++ "?signed")
        (fun _ => true) PyDecimal.mul PyDecimal.add.

Definition example_cfg (q : option string) : Config :=
  mkConfig "ap-south-1" "shop-bucket" q.


Definition example_table : list Product :=
  [mkProduct 1 "phone" (499 # 1) (Some "products/phone.jpg");
   mkProduct 2 "cup" (7 # 2) (Some "");
   mkProduct 3 "pen" (1 # 1) None].


Definition example_form : Form :=
  mkForm (Some "Asha") (Some "asha@example.org")
         (Some (mkFile (pystr "../../etc/passwd") "bytes")).

Definition example_trace : list (Env * request) :=
  [(example_env posix example_table, POST_cart_add 2);
   (example_env posix example_table, POST_checkout example_form);
   (example_env nt example_table, POST_cart_add 3);
   (example_env posix [], POST_cart_add 3);
   (example_env posix example_table, GET_cart)].

Definition example_state : State := mkState [(1, 2); (3, 1)] [] [].

(** Surroundings in which one of the services does not answer. *)
Definition failing_env (db s3 sqs : bool) : Env :=
  mkEnv posix (fun s => s) (if db then Some example_table else None) s3 sqs
        (fun b k _ => "https://" ++ b ++ "/" ++ k ++ "?signed")
        (fun _ => true) PyDecimal.mul PyDecimal.add.

Definition example_queue : string := "https://queue.example/orders".

(** Windows surroundings with a release of Werkzeug that lists neither
    COM0 nor LPT0. *)
Definition release_without_port_zero : Env :=
  mkEnv nt (fun s => s) (Some example_table) true true
        (fun b k _ => "https://" ++ b ++ "/" ++ k ++ "?signed")
        (fun d => negb (String.eqb d "COM0" || String.eqb d "LPT0"))
        PyDecimal.mul PyDecimal.add.

(** A parameter store and a database server for the examples. *)
Definition example_parameters : list (string * string) :=
  [("/ecommerce/db/host", "db.internal");
   ("/ecommerce/db/username", "shop");
   ("/ecommerce/db/password", "secret");
   ("/ecommerce/db/databasename", "ecommerce")].

Definition example_backend (parameters : list (string * string))
           (queries : bool) : Remote.Backend :=
  Remote.mkBackend parameters
                   (fun h _ _ _ => String.eqb h "db.internal")
                   example_table
                   (fun _ => queries).

(* ================================================================== *)
(** * Properties *)

(** ** Dictionaries *)

Module PyDictFacts.
Import PyDict.

Lemma get_set_same (d : t) (k v : Z) : get (set d k v) k = Some v.
Proof.
  induction d as [|[k' v'] r IH]; simpl.
  - now rewrite Z.eqb_refl.
  - destruct (Z.eqb k k') eqn:E; simpl; rewrite E; auto.
Qed.

Lemma get_set_other (d : t) (k k' v : Z) :
  k' <> k -> get (set d k v) k' = get d k'.
Proof.
  intros Hne. induction d as [|[k0 v0] r IH]; simpl.
  - destruct (Z.eqb k' k) eqn:E; auto. apply Z.eqb_eq in E. contradiction.
  - destruct (Z.eqb k k0) eqn:E; simpl.
    + apply Z.eqb_eq in E. subst k0.
      destruct (Z.eqb k' k) eqn:E'; auto.
      apply Z.eqb_eq in E'. contradiction.
    + now rewrite IH.
Qed.

Lemma keys_set (d : t) (k v : Z) :
  keys (set d k v) = if mem d k then keys d else List.app (keys d) [k].
Proof.
  unfold mem. induction d as [|[k' v'] r IH]; simpl; auto.
  destruct (Z.eqb k k') eqn:E; simpl; auto.
  rewrite IH. now destruct (get r k).
Qed.

Lemma get_none_not_in (d : t) (k : Z) : get d k = None -> ~ In k (keys d).
Proof.
  induction d as [|[k' v'] r IH]; simpl; auto.
  destruct (Z.eqb k k') eqn:E; [discriminate|].
  intros H [Heq|Hin]; [|now apply IH].
  subst k'. now rewrite Z.eqb_refl in E.
Qed.

Lemma wf_set (d : t) (k v : Z) : wf d -> wf (set d k v).
Proof.
  unfold wf. intros Hd. rewrite keys_set. unfold mem.
  destruct (get d k) eqn:G; auto.
  apply get_none_not_in in G.
  apply NoDup_rev in Hd. rewrite <- (rev_involutive (List.app (keys d) [k])).
  apply NoDup_rev. rewrite rev_app_distr. simpl. constructor; auto.
  now rewrite <- in_rev.
Qed.

Lemma wf_empty : wf empty.
Proof. constructor. Qed.


Lemma get_in (d : t) (k q : Z) : get d k = Some q -> In (k, q) d.
Proof.
  induction d as [|[k' v'] r IH]; simpl; [discriminate|].
  destruct (Z.eqb k k') eqn:E; intros H.
  - apply Z.eqb_eq in E. inversion H; subst. now left.
  - right. now apply IH.
Qed.

Lemma positive_set (d : t) (k v : Z) : positive d -> 1 <= v -> positive (set d k v).
Proof.
  unfold positive. intros Hd Hv.
  induction d as [|[k' v'] r IH]; simpl.
  - constructor; auto.
  - inversion Hd; subst. destruct (Z.eqb k k'); constructor; auto.
Qed.

Lemma positive_get (d : t) (k q : Z) : positive d -> get d k = Some q -> 1 <= q.
Proof.
  intros Hd Hg. apply get_in in Hg. unfold positive in Hd.
  rewrite Forall_forall in Hd. exact (Hd _ Hg).
Qed.

Lemma get_default_positive (d : t) (k : Z) : positive d -> 1 <= get_default d k 0 + 1.
Proof.
  intros Hd. unfold get_default. destruct (get d k) eqn:G; [|lia].
  pose proof (positive_get _ Hd G). lia.
Qed.

End PyDictFacts.

(* ------------------------------------------------------------------ *)
(** ** Startup *)

Lemma load_config_raises_iff (e : Environ) :
  (exists msg, load_config e = Raise (StartupError msg))
  <-> truthy (environ_get e "S3_BUCKET") = false.
Proof.
  unfold load_config.
  destruct (environ_get e "S3_BUCKET") as [b|] eqn:B; simpl.
  - destruct (String.eqb b ""); simpl; split; intros H;
      try reflexivity; try discriminate.
    + now exists missing_bucket_message.
    + destruct H as [msg H]. discriminate.
  - split; auto. intros _. now exists missing_bucket_message.
Qed.



(* ------------------------------------------------------------------ *)
(** ** Product lookup *)

Section Lookup.

Variable pid : Z.

Lemma find_absent (rows : list Product) :
  (forall r, In r rows -> id r <> pid) -> find (fun r => Z.eqb (id r) pid) rows = None.
Proof.
  induction rows as [|r rows IH]; simpl; auto.
  intros H.
  destruct (Z.eqb (id r) pid) eqn:E.
  - apply Z.eqb_eq in E. exfalso. apply (H r); auto.
  - apply IH. intros r' Hin. apply H. now right.
Qed.

Lemma find_present (rows : list Product) :
  (exists r, In r rows /\ id r = pid) ->
  exists p, find (fun r => Z.eqb (id r) pid) rows = Some p /\ In p rows /\ id p = pid.
Proof.
  intros [r [Hin Hid]].
  destruct (find (fun r => Z.eqb (id r) pid) rows) as [p|] eqn:F.
  - exists p. apply find_some in F. destruct F as [F1 F2].
    simpl in F2. apply Z.eqb_eq in F2. auto.
  - exfalso. pose proof (find_none _ _ F r Hin) as Hn.
    simpl in Hn. rewrite Hid, Z.eqb_refl in Hn. discriminate.
Qed.

End Lookup.

(** C8: with the database answering, a product id that no row carries
    gets the plain text "Product not found" with status 404, and an id
    that some row carries gets the detail page of a row with that id. *)
Theorem product_page_found_or_404 (cfg : Config) (env : Env)
        (rows : list Product) (pid : Z) (st : State) :
  products_table env = Some rows ->
  ((forall r, In r rows -> id r <> pid) ->
     product_page cfg env pid st = (Ok (Body "Product not found" 404), st))
  /\ ((exists r, In r rows /\ id r = pid) ->
      exists p, In p rows /\ id p = pid
        /\ product_page cfg env pid st
           = (Ok (Rendered (product_html (link_or_placeholder cfg env p))), st)).
Proof.
  intros Ht. unfold product_page, get_product, bind, ret. rewrite Ht.
  split.
  - intros Habs. now rewrite (find_absent _ Habs).
  - intros Hex. destruct (find_present _ Hex) as [p [F [Hin Hid]]].
    exists p. rewrite F. auto.
Qed.

Lemma product_page_found_or_404_witness :
  product_page (example_cfg None) (example_env posix example_table) 9 initial_state
    = (Ok (Body "Product not found" 404), initial_state)
  /\ exists p, In p example_table /\ id p = 2
       /\ product_page (example_cfg None) (example_env posix example_table) 2
                       initial_state
          = (Ok (Rendered (product_html
                   (link_or_placeholder (example_cfg None)
                                        (example_env posix example_table) p))),
             initial_state).
Proof.
  pose proof (@product_page_found_or_404 (example_cfg None)
                (example_env posix example_table) example_table) as H.
  split.
  - apply (proj1 (H 9 initial_state eq_refl)).
    intros r Hin. simpl in Hin.
    destruct Hin as [<-|[<-|[<-|[]]]]; simpl; lia.
  - apply (proj2 (H 2 initial_state eq_refl)).
    exists (mkProduct 2 "cup" (7 # 2) (Some "")). simpl. auto.
Defined.

(* ------------------------------------------------------------------ *)
(** ** The cart *)

(** C10: adding a product sets the entry of that product to one more than
    it was (to one when there was none) and leaves the entry of every other
    product, the stored objects and the queue as they were. *)
Theorem add_to_cart_changes_one_entry (pid : Z) (st : State) :
  let st' := snd (add_to_cart pid st) in
  PyDict.get (cart st') pid
    = Some (match PyDict.get (cart st) pid with
            | Some q => q + 1
            | None => 1
            end)
  /\ (forall k, k <> pid -> PyDict.get (cart st') k = PyDict.get (cart st) k)
  /\ bucket_objects st' = bucket_objects st
  /\ queue_messages st' = queue_messages st.
Proof.
  simpl. repeat split.
  - rewrite PyDictFacts.get_set_same. unfold PyDict.get_default.
    now destruct (PyDict.get (cart st) pid).
  - intros k Hk. now apply PyDictFacts.get_set_other.
Qed.

Lemma add_to_cart_changes_one_entry_witness :
  let st := mkState [(1, 4); (2, 1)] [] [] in
  PyDict.get (cart (snd (add_to_cart 1 st))) 1 = Some 5
  /\ PyDict.get (cart (snd (add_to_cart 1 st))) 2 = PyDict.get (cart st) 2.
Proof.
  intros st.
  destruct (add_to_cart_changes_one_entry 1 st) as [H1 [H2 _]].
  split; [exact H1|]. apply H2. discriminate.
Defined.

(** *** What each handler does to the cart *)

Ltac unfold_handler :=
  unfold checkout_post, checkout_get, add_to_cart, view_cart, product_page, home,
    cart_clear, render_order, json_dumps, send_message, upload_fileobj,
    get_product, get_all_products, read_cart, write_cart, bind, ret, raise.

Lemma view_cart_loop_state (cfg : Config) (env : Env) (entries : list (Z * Z)) :
  forall items total st,
    snd (view_cart_loop cfg env entries items total st) = st.
Proof.
  induction entries as [|[pid q] rest IH]; intros items total st; simpl; auto.
  unfold bind, get_product.
  destruct (products_table env) as [rows|]; simpl; auto.
  destruct (find (fun r => Z.eqb (id r) pid) rows); apply IH.
Qed.

Lemma view_cart_state (cfg : Config) (env : Env) (st : State) :
  snd (view_cart cfg env st) = st.
Proof.
  unfold view_cart, bind, read_cart, ret.
  pose proof (view_cart_loop_state cfg env (PyDict.items (cart st)) [] 0%Q st) as H.
  destruct (view_cart_loop cfg env (PyDict.items (cart st)) [] 0%Q st) as [[r|e] st'];
    simpl in *; auto.
Qed.

Lemma home_state (cfg : Config) (env : Env) (st : State) :
  snd (home cfg env st) = st.
Proof. unfold_handler. now destruct (products_table env). Qed.

Lemma product_page_state (cfg : Config) (env : Env) (pid : Z) (st : State) :
  snd (product_page cfg env pid st) = st.
Proof.
  unfold_handler. destruct (products_table env) as [rows|]; auto.
  now destruct (find (fun r => Z.eqb (id r) pid) rows).
Qed.

(** A checkout submission either raises before the cart is touched or
    runs to its end, where the cart has been cleared and the order is
    rendered through the reference it holds. *)
Lemma checkout_post_outcome (cfg : Config) (env : Env) (form : Form) (st : State) :
  (exists e, fst (checkout_post cfg env form st) = Raise e
             /\ cart (snd (checkout_post cfg env form st)) = cart st)
  \/ (exists u sent,
        fst (checkout_post cfg env form st)
        = Ok (Rendered (checkout_html_success
                          (mkOrderView (form_name form) (form_email form) [])
                          u sent))
        /\ cart (snd (checkout_post cfg env form st)) = []).
Proof.
  unfold_handler.
  destruct (files_image form) as [f|];
    [destruct (nonempty (filename f)); [destruct (s3_reachable env)|]|];
    destruct (sqs_client cfg) as [url|]; try destruct (sqs_reachable env);
    simpl; eauto.
Qed.

Lemma handle_keeps_wf (cfg : Config) (env : Env) (r : request) (st : State) :
  PyDict.wf (cart st) -> PyDict.wf (cart (snd (handle cfg env r st))).
Proof.
  intros H. destruct r; simpl.
  - now rewrite home_state.
  - now rewrite product_page_state.
  - now rewrite view_cart_state.
  - now apply PyDictFacts.wf_set.
  - exact H.
  - destruct (checkout_post_outcome cfg env form st) as [[e [_ Hc]]|[u [s [_ Hc]]]];
      rewrite Hc; auto. constructor.
  - now rewrite home_state.
  - now rewrite product_page_state.
  - now rewrite view_cart_state.
  - destruct (checkout_post_outcome cfg env no_form st)
      as [[e [_ Hc]]|[u [s [_ Hc]]]];
      rewrite Hc; auto. constructor.
Qed.

Lemma handle_keeps_positive (cfg : Config) (env : Env) (r : request) (st : State) :
  PyDict.positive (cart st) ->
  PyDict.positive (cart (snd (handle cfg env r st))).
Proof.
  intros H. destruct r; simpl.
  - now rewrite home_state.
  - now rewrite product_page_state.
  - now rewrite view_cart_state.
  - apply PyDictFacts.positive_set; auto.
    now apply PyDictFacts.get_default_positive.
  - exact H.
  - destruct (checkout_post_outcome cfg env form st) as [[e [_ Hc]]|[u [s [_ Hc]]]];
      rewrite Hc; auto. constructor.
  - now rewrite home_state.
  - now rewrite product_page_state.
  - now rewrite view_cart_state.
  - destruct (checkout_post_outcome cfg env no_form st)
      as [[e [_ Hc]]|[u [s [_ Hc]]]];
      rewrite Hc; auto. constructor.
Qed.

Lemma run_keeps_positive (cfg : Config) (trace : list (Env * request)) :
  forall st, PyDict.positive (cart st) ->
             PyDict.positive (cart (run cfg trace st)).
Proof.
  induction trace as [|[env r] rest IH]; intros st H; simpl; auto.
  apply IH. now apply handle_keeps_positive.
Qed.

Lemma run_keeps_wf (cfg : Config) (trace : list (Env * request)) :
  forall st, PyDict.wf (cart st) -> PyDict.wf (cart (run cfg trace st)).
Proof.
  induction trace as [|[env r] rest IH]; intros st H; simpl; auto.
  apply IH. now apply handle_keeps_wf.
Qed.

(** C9: from the empty cart, after any sequence of requests (additions,
    checkouts that clear the cart, checkouts that fail, page views), each
    in surroundings of its own, every quantity found in the cart is at
    least one. *)
Theorem cart_quantities_at_least_one (cfg : Config) (trace : list (Env * request))
        (k q : Z) :
  PyDict.get (cart (run cfg trace initial_state)) k = Some q -> 1 <= q.
Proof.
  apply PyDictFacts.positive_get.
  apply run_keeps_positive. constructor.
Qed.

Lemma cart_quantities_at_least_one_witness :
  PyDict.get (cart (run (example_cfg None) example_trace initial_state)) 3 = Some 2
  /\ 1 <= 2.
Proof.
  split; [reflexivity|].
  apply (@cart_quantities_at_least_one (example_cfg None) example_trace 3 2).
  reflexivity.
Defined.

(* ------------------------------------------------------------------ *)
(** ** Checkout *)

(** C5: whenever a checkout submission returns a page, whatever the cart
    held before, the cart is empty afterwards, and a cart view that
    follows shows no line and a total of zero (without consulting the
    database at all). *)
Theorem checkout_success_empties_cart (cfg : Config) (env : Env) (form : Form)
        (st st' : State) (r : response) :
  checkout_post cfg env form st = (Ok r, st') ->
  cart st' = PyDict.empty
  /\ forall cfg' env', view_cart cfg' env' st' = (Ok (Rendered (cart_html [] 0%Q)), st').
Proof.
  intros H.
  assert (Hc : cart st' = []).
  { destruct (checkout_post_outcome cfg env form st) as [[e [He _]]|[u [s [_ Hc]]]];
      rewrite H in *; simpl in *; [discriminate|exact Hc]. }
  split; [exact Hc|].
  intros cfg' env'. unfold view_cart, bind, read_cart, ret.
  rewrite Hc. reflexivity.
Qed.

Lemma checkout_success_empties_cart_witness :
  cart (snd (checkout_post (example_cfg None) (example_env posix example_table)
                           example_form example_state)) = PyDict.empty
  /\ view_cart (example_cfg None) (example_env posix example_table)
               (snd (checkout_post (example_cfg None)
                                   (example_env posix example_table)
                                   example_form example_state))
     = (Ok (Rendered (cart_html [] 0%Q)),
        snd (checkout_post (example_cfg None) (example_env posix example_table)
                           example_form example_state)).
Proof.
  pose proof (@checkout_success_empties_cart (example_cfg None)
                (example_env posix example_table) example_form example_state
                _ _ eq_refl) as [H1 H2].
  split; [exact H1|apply H2].
Defined.

(** What is written is read back: the body of an order placed while the
    cart held [d] reads as the name, the email and [d]. *)
Lemma read_key_json_key (k : Z) : read_key (json_key k) = Some k.
Proof.
  unfold read_key, json_key.
  rewrite NilZero.isi.
  - simpl. now rewrite DecimalZ.of_to.
  - destruct k; simpl; try discriminate.
    intros E. inversion E as [E']. exact (DecimalPos.Unsigned.to_uint_nonnil _ E').
  - destruct k; simpl; try discriminate.
    intros E. inversion E as [E']. exact (DecimalPos.Unsigned.to_uint_nonnil _ E').
Qed.

Lemma read_items_written (d : PyDict.t) : read_items (json_of_dict d) = Some d.
Proof.
  unfold json_of_dict, PyDict.items. simpl.
  induction d as [|[k v] r IH]; simpl; auto.
  now rewrite read_key_json_key, IH.
Qed.

Lemma read_order_written (n e : option string) (d : PyDict.t) :
  read_order (JObject [("name", json_of_optional_string n);
                       ("email", json_of_optional_string e);
                       ("items", json_of_dict d)])
  = Some (n, e, d).
Proof.
  unfold read_order. cbn [read_member String.eqb Ascii.eqb Bool.eqb].
  rewrite read_items_written. now destruct n, e.
Qed.

(** C3: provided the attachment upload, when there is one, goes through:
    without a queue URL the submission returns the confirmation page with
    the sent flag off and the queue is left as it was (whether or not the
    queue could be reached); with a queue URL and the queue reachable it
    returns the page with the flag on, exactly one message has been added
    to that queue, the message reads back as the submitted name, the
    submitted email and, for its items, the cart as it stood before the
    call, and the cart is empty afterwards. *)
Theorem checkout_queue_reporting (cfg : Config) (env : Env) (form : Form)
        (st : State) :
  (upload_attempted form = true -> s3_reachable env = true) ->
  (SQS_URL cfg = None ->
     exists o u,
       fst (checkout_post cfg env form st)
       = Ok (Rendered (checkout_html_success o u false))
       /\ queue_messages (snd (checkout_post cfg env form st)) = queue_messages st)
  /\ (forall url, SQS_URL cfg = Some url -> url <> "" -> sqs_reachable env = true ->
      exists o u body,
        fst (checkout_post cfg env form st)
        = Ok (Rendered (checkout_html_success o u true))
        /\ queue_messages (snd (checkout_post cfg env form st))
           = List.app (queue_messages st) [(url, body)]
        /\ read_order body = Some (form_name form, form_email form, cart st)
        /\ cart (snd (checkout_post cfg env form st)) = PyDict.empty).
Proof.
  intros Hup. split.
  - intros Hq. unfold_handler. unfold sqs_client, upload_attempted in *.
    rewrite Hq. simpl.
    destruct (files_image form) as [f|]; simpl; eauto.
    destruct (nonempty (filename f)); simpl; eauto.
    rewrite (Hup eq_refl). simpl. eauto.
  - intros url Hq Hne Hr.
    pose proof (read_order_written (form_name form) (form_email form) (cart st))
      as Hread.
    unfold_handler. unfold sqs_client, upload_attempted in *.
    rewrite Hq. simpl.
    destruct (String.eqb url "") eqn:E;
      [apply String.eqb_eq in E; contradiction|]. simpl.
    destruct (files_image form) as [f|]; simpl.
    + destruct (nonempty (filename f)); simpl.
      * rewrite (Hup eq_refl). simpl. rewrite Hr. simpl.
        do 3 eexists. repeat split. exact Hread.
      * rewrite Hr. simpl. do 3 eexists. repeat split. exact Hread.
    + rewrite Hr. simpl. do 3 eexists. repeat split. exact Hread.
Qed.

Lemma checkout_queue_reporting_witness :
  (exists o u,
     fst (checkout_post (example_cfg None) (example_env posix example_table)
                        example_form example_state)
     = Ok (Rendered (checkout_html_success o u false))
     /\ queue_messages (snd (checkout_post (example_cfg None)
                               (example_env posix example_table)
                               example_form example_state)) = [])
  /\ (exists o u body,
        fst (checkout_post (example_cfg (Some "https://queue.example/orders"))
                           (example_env posix example_table)
                           example_form example_state)
        = Ok (Rendered (checkout_html_success o u true))
        /\ queue_messages (snd (checkout_post
                                  (example_cfg (Some "https://queue.example/orders"))
                                  (example_env posix example_table)
                                  example_form example_state))
           = [("https://queue.example/orders", body)]
        /\ read_order body
           = Some (Some "Asha", Some "asha@example.org", [(1, 2); (3, 1)])
        /\ cart (snd (checkout_post
                        (example_cfg (Some "https://queue.example/orders"))
                        (example_env posix example_table)
                        example_form example_state)) = PyDict.empty).
Proof.
  split.
  - apply (proj1 (@checkout_queue_reporting (example_cfg None)
                    (example_env posix example_table) example_form example_state
                    (fun _ => eq_refl))).
    reflexivity.
  - apply (proj2 (@checkout_queue_reporting
                    (example_cfg (Some "https://queue.example/orders"))
                    (example_env posix example_table) example_form example_state
                    (fun _ => eq_refl))
             "https://queue.example/orders" eq_refl).
    + discriminate.
    + reflexivity.
Defined.

(** The confirmation page of every submission that runs to its end shows
    an order without items, whatever the cart held. *)
Lemma checkout_confirmation_items (cfg : Config) (env : Env) (form : Form)
      (st st' : State) (o : OrderView) (u : option string) (sent : bool) :
  checkout_post cfg env form st
    = (Ok (Rendered (checkout_html_success o u sent)), st') ->
  view_items o = PyDict.empty.
Proof.
  intros H.
  destruct (checkout_post_outcome cfg env form st) as [[e [He _]]|[u' [s' [Hr _]]]];
    rewrite H in *; simpl in *; [discriminate|].
  now inversion Hr.
Qed.

(** C1: a submission made while the cart holds two units of product 1.
    The message put on the queue carries the items, but the order handed to
    the confirmation page has none: the order refers to the cart object,
    which has been cleared by the time the page is rendered. *)
Theorem checkout_confirmation_after_clear :
  checkout_post (example_cfg (Some "https://queue.example/orders"))
                (example_env posix example_table)
                (mkForm (Some "Asha") (Some "asha@example.org") None)
                (mkState [(1, 2)] [] [])
  = (Ok (Rendered (checkout_html_success
                     (mkOrderView (Some "Asha") (Some "asha@example.org") [])
                     None true)),
     mkState []
             []
             [("https://queue.example/orders",
               JObject [("name", JString "Asha");
                        ("email", JString "asha@example.org");
                        ("items", JObject [("1", JInt 2)])])]).
Proof. reflexivity. Qed.

(* ------------------------------------------------------------------ *)
(** ** Images on rendered pages *)

Lemma link_or_placeholder_without_key (cfg : Config) (env : Env) (p : Product) :
  truthy (image_url p) = false ->
  image_url (link_or_placeholder cfg env p) = Some placeholder.
Proof. intros H. unfold link_or_placeholder. now rewrite H. Qed.

Lemma home_shows_placeholder (cfg : Config) (env : Env) (st : State)
      (rows : list Product) :
  products_table env = Some rows ->
  exists shown,
    home cfg env st = (Ok (Rendered (index_html shown)), st)
    /\ Forall2 (fun p p' => truthy (image_url p) = false ->
                            image_url p' = Some placeholder) rows shown.
Proof.
  intros Ht. exists (map (link_or_placeholder cfg env) rows). split.
  - unfold_handler. now rewrite Ht.
  - clear Ht. induction rows as [|p rows IH]; simpl; constructor; auto.
    apply link_or_placeholder_without_key.
Qed.

(** C2: the cart page for a cart holding product 2, whose image key is the
    empty string, and product 3, which has no image key.  Both lines carry
    the product exactly as the database returned it, where the listing and
    the detail page put the placeholder. *)
Theorem view_cart_keeps_empty_image_key :
  view_cart (example_cfg None) (example_env posix example_table)
            (mkState [(2, 1); (3, 1)] [] [])
  = (Ok (Rendered (cart_html
                     [mkItem (mkProduct 2 "cup" (7 # 2) (Some "")) 1 (7 # 2);
                      mkItem (mkProduct 3 "pen" (1 # 1) None) 1 (1 # 1)]
                     (9 # 2))),
     mkState [(2, 1); (3, 1)] [] [])
  /\ home (example_cfg None) (example_env posix example_table)
          (mkState [(2, 1); (3, 1)] [] [])
     = (Ok (Rendered (index_html
              [mkProduct 1 "phone" (499 # 1)
                         (Some "https://shop-bucket/products/phone.jpg?signed");
               mkProduct 2 "cup" (7 # 2) (Some placeholder);
               mkProduct 3 "pen" (1 # 1) (Some placeholder)])),
        mkState [(2, 1); (3, 1)] [] []).
Proof. split; reflexivity. Qed.

(* ------------------------------------------------------------------ *)
(** ** The cart page *)













(* ------------------------------------------------------------------ *)
(** ** Upload keys *)

Module WerkzeugFacts.
Import Werkzeug.
Local Open Scope char_scope.

Example backslash_code : N_of_ascii backslash = 92%N.
Proof. reflexivity. Qed.

(** Whatever the release, a name it lists is one of the reserved names. *)
Lemma listed_device_is_reserved (env : Env) (s : list ascii) :
  is_listed_device_file env s = true -> is_device_file s = true.
Proof.
  unfold is_listed_device_file, is_device_file, installed_device_files.
  intros H. apply existsb_exists in H. destruct H as [d [Hin Hd]].
  apply filter_In in Hin. apply existsb_exists. exists d. tauto.
Qed.

Lemma not_reserved_not_listed (env : Env) (s : list ascii) :
  is_device_file s = false -> is_listed_device_file env s = false.
Proof.
  intros H. destruct (is_listed_device_file env s) eqn:E; auto.
  apply listed_device_is_reserved in E. congruence.
Qed.

Lemma filename_char_not_separator (c : ascii) :
  filename_char c = true -> is_separator c = false.
Proof.
  unfold is_separator. intros H.
  destruct (Ascii.eqb c "/") eqn:E1.
  - apply Ascii.eqb_eq in E1. subst c. discriminate.
  - destruct (Ascii.eqb c backslash) eqn:E2; auto.
    apply Ascii.eqb_eq in E2. subst c. discriminate.
Qed.

Lemma lstrip_suffix (s : list ascii) : exists pre, s = List.app pre (lstrip s).
Proof.
  induction s as [|c r [pre IH]]; simpl.
  - now exists [].
  - destruct (is_dot_or_underscore c).
    + exists (c :: pre). simpl. now f_equal.
    + now exists [].
Qed.

Lemma lstrip_head (s : list ascii) :
  match lstrip s with
  | [] => True
  | c :: _ => is_dot_or_underscore c = false
  end.
Proof.
  induction s as [|c r IH]; simpl; auto.
  destruct (is_dot_or_underscore c) eqn:E; auto.
Qed.

Lemma Forall_lstrip (P : ascii -> Prop) (s : list ascii) :
  Forall P s -> Forall P (lstrip s).
Proof.
  intros H. destruct (lstrip_suffix s) as [pre E].
  rewrite E in H. apply Forall_app in H. tauto.
Qed.

Lemma Forall_strip (P : ascii -> Prop) (s : list ascii) :
  Forall P s -> Forall P (strip s).
Proof.
  intros H. unfold strip.
  apply Forall_rev, Forall_lstrip, Forall_rev, Forall_lstrip, H.
Qed.

Lemma strip_head (s : list ascii) :
  match strip s with
  | [] => True
  | c :: _ => is_dot_or_underscore c = false
  end.
Proof.
  unfold strip. set (u := lstrip s).
  pose proof (lstrip_head s) as Hh. fold u in Hh.
  destruct (lstrip_suffix (rev u)) as [pre E].
  apply (f_equal (@rev ascii)) in E.
  rewrite rev_involutive, rev_app_distr in E.
  destruct (rev (lstrip (rev u))) as [|c r]; auto.
  rewrite E in Hh. exact Hh.
Qed.

(** The sanitised name consists of letters, digits, dots, underscores and
    hyphens, and does not begin with a dot. *)
Lemma secure_filename_chars (env : Env) (s : list N) :
  Forall (fun c => filename_char c = true) (secure_filename env s).
Proof.
  unfold secure_filename.
  match goal with
  | |- context [strip (filter filename_char ?l)] =>
      assert (H : Forall (fun c => filename_char c = true)
                         (strip (filter filename_char l)))
        by (apply Forall_strip, Forall_forall; intros c Hc;
            apply filter_In in Hc; tauto);
      destruct (strip (filter filename_char l)) as [|c r]
  end.
  - now destruct (os_name env).
  - destruct (os_name env); auto.
    destruct (is_listed_device_file env (c :: r)); auto.
Qed.

Lemma secure_filename_head (env : Env) (s : list N) :
  match secure_filename env s with
  | [] => True
  | c :: _ => c <> "."
  end.
Proof.
  unfold secure_filename.
  match goal with
  | |- context [strip (filter filename_char ?l)] =>
      pose proof (strip_head (filter filename_char l)) as H;
      destruct (strip (filter filename_char l)) as [|c r]
  end.
  - now destruct (os_name env).
  - assert (c <> ".") by (intros ->; discriminate).
    destruct (os_name env); auto.
    destruct (is_listed_device_file env (c :: r)); auto. discriminate.
Qed.

End WerkzeugFacts.

Lemma split_on_no_separator (sep : ascii) (s : list ascii) :
  Forall (fun c => Ascii.eqb c sep = false) s -> split_on sep s = [s].
Proof.
  induction 1 as [|c r Hc Hr IH]; simpl; auto.
  now rewrite Hc, IH.
Qed.

Lemma upload_key_safe (env : Env) (f : FileStorage) :
  safe_upload_key (upload_key env f).
Proof.
  unfold upload_key.
  pose proof (WerkzeugFacts.secure_filename_chars env (filename f)) as Hc.
  pose proof (WerkzeugFacts.secure_filename_head env (filename f)) as Hh.
  set (fn := Werkzeug.secure_filename env (filename f)) in *.
  assert (Hsep : Forall (fun c => is_separator c = false) fn).
  { eapply Forall_impl; [|exact Hc]. apply WerkzeugFacts.filename_char_not_separator. }
  exists (string_of_list_ascii fn). split; [reflexivity|].
  rewrite list_ascii_of_string_of_list_ascii. repeat split.
  - apply forallb_forall. rewrite Forall_forall in Hsep.
    intros c Hin. now rewrite (Hsep c Hin).
  - unfold path_segments. simpl.
    rewrite list_ascii_of_string_of_list_ascii.
    rewrite split_on_no_separator; [reflexivity|].
    eapply Forall_impl; [|exact Hsep].
    intros c H. unfold is_separator in H. now apply orb_false_elim in H.
  - intros E. destruct fn as [|c r]; [discriminate|].
    simpl in E. inversion E. now apply Hh.
  - intros E. destruct fn as [|c r]; [discriminate|].
    simpl in E. inversion E. now apply Hh.
Qed.

Lemma checkout_post_objects (cfg : Config) (env : Env) (form : Form) (st : State) :
  bucket_objects (snd (checkout_post cfg env form st)) = bucket_objects st
  \/ exists f, files_image form = Some f
       /\ bucket_objects (snd (checkout_post cfg env form st))
          = List.app (bucket_objects st) [(BUCKET cfg, upload_key env f, stream f)].
Proof.
  unfold_handler.
  destruct (files_image form) as [f|];
    [destruct (nonempty (filename f)); [destruct (s3_reachable env)|]|];
    destruct (sqs_client cfg) as [url|]; try destruct (sqs_reachable env);
    simpl; eauto.
Qed.

(** C6: every object a checkout submission adds to storage, whatever the
    submitted file name, platform and normaliser, has a key made of the
    prefix "uploads/" followed by a single path segment that contains
    neither a slash nor a backslash and is neither ".." nor ".". *)
Theorem checkout_upload_key_confined (cfg : Config) (env : Env) (form : Form)
        (st : State) (bucket key body : string) :
  In (bucket, key, body) (bucket_objects (snd (checkout_post cfg env form st))) ->
  In (bucket, key, body) (bucket_objects st)
  \/ (String.prefix "uploads/" key = true /\ safe_upload_key key).
Proof.
  intros Hin.
  destruct (checkout_post_objects cfg env form st) as [E|[f [_ E]]];
    rewrite E in Hin; auto.
  apply in_app_or in Hin. destruct Hin as [Hin|[Heq|[]]]; auto.
  right. inversion Heq; subst. split; [|apply upload_key_safe].
  unfold upload_key. simpl.
  now destruct (string_of_list_ascii (Werkzeug.secure_filename env (filename f))).
Qed.

Lemma checkout_upload_key_confined_witness :
  In ("shop-bucket", "uploads/etc_passwd", "bytes")
     (bucket_objects (snd (checkout_post (example_cfg None)
                                         (example_env posix example_table)
                                         example_form example_state)))
  /\ (In ("shop-bucket", "uploads/etc_passwd", "bytes") (bucket_objects example_state)
      \/ (String.prefix "uploads/" "uploads/etc_passwd" = true
          /\ safe_upload_key "uploads/etc_passwd")).
Proof.
  split.
  - left. reflexivity.
  - apply (@checkout_upload_key_confined (example_cfg None)
             (example_env posix example_table) example_form example_state).
    left. reflexivity.
Defined.

(** The file name of the traversal attempt, on either platform, when the
    normaliser leaves it alone (it is plain ASCII). *)
Lemma secure_filename_traversal_attempt (env : Env) :
  unicodedata_normalize_NFKD env (pystr "../../etc/passwd")
    = pystr "../../etc/passwd" ->
  upload_key env (mkFile (pystr "../../etc/passwd") "bytes") = "uploads/etc_passwd".
Proof.
  intros H. unfold upload_key, Werkzeug.secure_filename. simpl filename.
  rewrite H.
  destruct (os_name env); [reflexivity|].
  match goal with
  | |- context [Werkzeug.strip ?t] =>
      let v := eval vm_compute in (Werkzeug.strip t) in
      change (Werkzeug.strip t) with v
  end.
  cbv beta iota.
  rewrite WerkzeugFacts.not_reserved_not_listed by reflexivity.
  reflexivity.
Qed.

(** The items member determines the cart it was written from. *)
Lemma json_key_injective (a b : Z) : json_key a = json_key b -> a = b.
Proof.
  unfold json_key. intros H.
  apply (f_equal NilZero.int_of_string) in H.
  assert (nonnil : forall z, Z.to_int z <> Decimal.Pos Decimal.Nil
                             /\ Z.to_int z <> Decimal.Neg Decimal.Nil).
  { intros [|p|p]; simpl; split; try discriminate;
      intros E; inversion E as [E'];
      exact (DecimalPos.Unsigned.to_uint_nonnil p E'). }
  rewrite !NilZero.isi in H by apply nonnil.
  inversion H as [E]. now apply DecimalZ.to_int_inj.
Qed.

Lemma json_of_dict_injective (d1 d2 : PyDict.t) :
  json_of_dict d1 = json_of_dict d2 -> d1 = d2.
Proof.
  unfold json_of_dict, PyDict.items. intros H. inversion H as [E]. clear H.
  revert d2 E. induction d1 as [|[k v] r IH]; intros [|[k' v'] r'] E;
    simpl in E; try discriminate; auto.
  inversion E as [[Ek Ev Er]].
  apply json_key_injective in Ek. subst. f_equal. now apply IH.
Qed.

(* ================================================================== *)
(** * Further properties of the handlers *)

(** ** Startup *)

(** X1: the module body completes exactly when S3_BUCKET is set to a
    non-empty value; an empty value aborts like an absent one.  The
    configuration then holds the bucket and the queue URL as they are in
    the environment, and the region as it is there, even when empty: the
    default is used only when REGION is absent. *)
Theorem load_config_outcome (e : Environ) :
  match load_config e with
  | Ok cfg =>
      environ_get e "S3_BUCKET" = Some (BUCKET cfg)
      /\ BUCKET cfg <> ""
      /\ SQS_URL cfg = environ_get e "SQS_QUEUE_URL"
      /\ REGION cfg = match environ_get e "REGION" with
                      | Some r => r
                      | None => "ap-south-1"
                      end
  | Raise ex =>
      ex = StartupError missing_bucket_message
      /\ (environ_get e "S3_BUCKET" = None \/ environ_get e "S3_BUCKET" = Some "")
  end.
Proof.
  unfold load_config, environ_get_default.
  destruct (environ_get e "S3_BUCKET") as [b|]; simpl; auto.
  destruct (String.eqb b "") eqn:E; simpl.
  - apply String.eqb_eq in E. subst b. auto.
  - apply String.eqb_neq in E. auto.
Qed.

(* ------------------------------------------------------------------ *)
(** ** Requests that only read *)

(** X2: a GET request (listing, detail, cart view, checkout form) leaves
    the cart, the stored objects and the queue exactly as they were,
    whether the database answers or raises. *)
Theorem get_requests_change_nothing (cfg : Config) (env : Env) (r : request)
        (st : State) :
  is_get r = true -> snd (handle cfg env r st) = st.
Proof.
  destruct r; simpl; intros H; try discriminate.
  - apply home_state.
  - apply product_page_state.
  - apply view_cart_state.
  - reflexivity.
Qed.

Lemma get_requests_change_nothing_witness :
  is_get GET_cart = true
  /\ snd (handle (example_cfg None) (example_env posix example_table) GET_cart
                 example_state) = example_state.
Proof.
  split; [reflexivity|].
  apply (@get_requests_change_nothing (example_cfg None)
           (example_env posix example_table) GET_cart example_state).
  reflexivity.
Defined.

(* ------------------------------------------------------------------ *)
(** ** Checkout when a remote call raises *)

Ltac checkout_cases cfg env form :=
  unfold_handler;
  unfold sqs_client, upload_attempted, attachment, outgoing, sqs_client in *;
  destruct (files_image form) as [f|];
  [destruct (nonempty (filename f)); [destruct (s3_reachable env)|]|];
  (destruct (SQS_URL cfg) as [url|]; simpl in *;
   [destruct (String.eqb url "") eqn:Eurl; simpl in *;
    [|destruct (sqs_reachable env); simpl in *]|]).

(** X3: when the submission carries a file and the upload raises, the
    request fails with the storage error and nothing has happened: the
    cart keeps its content, nothing is stored and nothing is sent. *)
Theorem checkout_storage_failure (cfg : Config) (env : Env) (form : Form)
        (st : State) :
  upload_attempted form = true -> s3_reachable env = false ->
  checkout_post cfg env form st = (Raise (RemoteServiceError ObjectStorage), st).
Proof.
  intros Hu Hs. unfold_handler. unfold upload_attempted in Hu.
  destruct (files_image form) as [f|]; [|discriminate].
  now rewrite Hu, Hs.
Qed.

Lemma checkout_storage_failure_witness :
  checkout_post (example_cfg (Some example_queue)) (failing_env true false true)
                example_form example_state
  = (Raise (RemoteServiceError ObjectStorage), example_state).
Proof.
  apply (@checkout_storage_failure (example_cfg (Some example_queue))
           (failing_env true false true) example_form example_state);
    reflexivity.
Defined.

(** X4: when a queue is configured and the send raises, the request fails
    with the queue error after the attachment, if any, has been written:
    the stored object stays, while the cart keeps its content and the
    queue gets nothing. *)
Theorem checkout_queue_failure (cfg : Config) (env : Env) (form : Form)
        (st : State) (url : string) :
  SQS_URL cfg = Some url -> url <> "" -> sqs_reachable env = false ->
  (upload_attempted form = true -> s3_reachable env = true) ->
  checkout_post cfg env form st
  = (Raise (RemoteServiceError Queue),
     mkState (cart st)
             (List.app (bucket_objects st) (attachment cfg env form))
             (queue_messages st)).
Proof.
  intros Hq Hne Hr Hup. unfold_handler.
  unfold sqs_client, upload_attempted, attachment in *.
  rewrite Hq. simpl.
  destruct (String.eqb url "") eqn:E; [apply String.eqb_eq in E; contradiction|].
  simpl.
  destruct (files_image form) as [f|]; simpl.
  - destruct (nonempty (filename f)); simpl.
    + rewrite (Hup eq_refl). simpl. now rewrite Hr.
    + rewrite Hr. simpl. rewrite app_nil_r. now destruct st.
  - rewrite Hr. simpl. rewrite app_nil_r. now destruct st.
Qed.

Lemma checkout_queue_failure_witness :
  checkout_post (example_cfg (Some example_queue)) (failing_env true true false)
                example_form example_state
  = (Raise (RemoteServiceError Queue),
     mkState [(1, 2); (3, 1)] [("shop-bucket", "uploads/etc_passwd", "bytes")] []).
Proof.
  apply (@checkout_queue_failure (example_cfg (Some example_queue))
           (failing_env true true false) example_form example_state
           example_queue eq_refl).
  - discriminate.
  - reflexivity.
  - reflexivity.
Defined.

(* ------------------------------------------------------------------ *)
(** ** Checkout when it returns its page *)

(** The whole effect of a submission that runs to its end. *)
Lemma checkout_post_success (cfg : Config) (env : Env) (form : Form)
      (st st' : State) (r : response) :
  checkout_post cfg env form st = (Ok r, st') ->
  r = Rendered (checkout_html_success
                  (mkOrderView (form_name form) (form_email form) [])
                  match attachment cfg env form with
                  | [] => None
                  | (b, k, _) :: _ => Some (generate_presigned_url env b k 3600)
                  end
                  (truthy (SQS_URL cfg)))
  /\ st' = mkState [] (List.app (bucket_objects st) (attachment cfg env form))
                   (List.app (queue_messages st) (outgoing cfg form (cart st))).
Proof.
  unfold presigned_get_url.
  checkout_cases cfg env form; intros H; inversion H; subst; clear H;
    rewrite ?app_nil_r; auto.
Qed.

(** X5: on the confirmation page the sent flag is on exactly when
    SQS_QUEUE_URL is set to a non-empty value (an empty value disables the
    publisher like an absent one).  When the flag is on, the queue has
    received exactly one message, addressed to that URL, which reads back
    as the submitted name, the submitted email and the cart as it stood
    before the call; when it is off, the queue has received nothing. *)
Theorem checkout_sent_flag_matches_queue (cfg : Config) (env : Env) (form : Form)
        (st st' : State) (o : OrderView) (u : option string) (sent : bool) :
  checkout_post cfg env form st
    = (Ok (Rendered (checkout_html_success o u sent)), st') ->
  sent = truthy (SQS_URL cfg)
  /\ if sent
     then exists url body,
         SQS_URL cfg = Some url /\ url <> ""
         /\ queue_messages st' = List.app (queue_messages st) [(url, body)]
         /\ read_order body = Some (form_name form, form_email form, cart st)
     else queue_messages st' = queue_messages st.
Proof.
  intros H. apply checkout_post_success in H. destruct H as [Hr Hs].
  inversion Hr; subst. simpl. split; [reflexivity|].
  unfold outgoing, sqs_client.
  destruct (SQS_URL cfg) as [url|] eqn:Hq; simpl; [|now rewrite app_nil_r].
  destruct (String.eqb url "") eqn:E; simpl; [now rewrite app_nil_r|].
  exists url, (order_message form (cart st)).
  split; [reflexivity|]. split; [now apply String.eqb_neq|].
  split; [reflexivity|]. apply read_order_written.
Qed.

Lemma checkout_sent_flag_matches_queue_witness :
  true = truthy (SQS_URL (example_cfg (Some example_queue)))
  /\ exists url body,
       SQS_URL (example_cfg (Some example_queue)) = Some url /\ url <> ""
       /\ queue_messages (snd (checkout_post (example_cfg (Some example_queue))
                                 (example_env posix example_table)
                                 example_form example_state))
          = List.app (queue_messages example_state) [(url, body)]
       /\ read_order body
          = Some (form_name example_form, form_email example_form,
                  cart example_state).
Proof.
  apply (@checkout_sent_flag_matches_queue (example_cfg (Some example_queue))
           (example_env posix example_table) example_form example_state
           _ _ _ true eq_refl).
Defined.

(** X6: a submission that runs to its end stores at most one object.  With
    a file part whose name is not empty, the object is the file, written
    to the configured bucket under the upload key, and the link on the
    page is the signed link of that very key, valid for 3600 seconds;
    without one (no file part, or an empty file name) nothing is stored
    and the page has no link. *)
Theorem checkout_link_matches_storage (cfg : Config) (env : Env) (form : Form)
        (st st' : State) (o : OrderView) (u : option string) (sent : bool) :
  checkout_post cfg env form st
    = (Ok (Rendered (checkout_html_success o u sent)), st') ->
  match files_image form with
  | Some f =>
      if nonempty (filename f)
      then bucket_objects st'
           = List.app (bucket_objects st) [(BUCKET cfg, upload_key env f, stream f)]
           /\ u = Some (generate_presigned_url env (BUCKET cfg) (upload_key env f) 3600)
      else bucket_objects st' = bucket_objects st /\ u = None
  | None => bucket_objects st' = bucket_objects st /\ u = None
  end.
Proof.
  intros H. apply checkout_post_success in H. destruct H as [Hr Hs].
  inversion Hr; subst. simpl. unfold attachment.
  destruct (files_image form) as [f|]; [destruct (nonempty (filename f))|];
    rewrite ?app_nil_r; auto.
Qed.

Lemma checkout_link_matches_storage_witness :
  bucket_objects (snd (checkout_post (example_cfg None)
                         (example_env posix example_table)
                         example_form example_state))
  = [("shop-bucket", "uploads/etc_passwd", "bytes")]
  /\ Some "https://shop-bucket/uploads/etc_passwd?signed"
     = Some (generate_presigned_url (example_env posix example_table)
               "shop-bucket" "uploads/etc_passwd" 3600).
Proof.
  apply (@checkout_link_matches_storage (example_cfg None)
           (example_env posix example_table) example_form example_state
           _ _ _ false eq_refl).
Defined.

(** A submission runs to its end when the calls it makes go through. *)
Lemma checkout_post_completes (cfg : Config) (env : Env) (form : Form) (st : State) :
  (upload_attempted form = true -> s3_reachable env = true) ->
  (truthy (SQS_URL cfg) = true -> sqs_reachable env = true) ->
  exists r st', checkout_post cfg env form st = (Ok r, st').
Proof.
  intros Hup Hq. unfold_handler. unfold sqs_client, upload_attempted in *.
  destruct (files_image form) as [f|]; simpl.
  - destruct (nonempty (filename f)); simpl.
    + rewrite (Hup eq_refl). simpl.
      destruct (truthy (SQS_URL cfg)); simpl.
      * destruct (SQS_URL cfg) as [url|]; simpl; eauto.
        rewrite (Hq eq_refl). simpl. eauto.
      * eauto.
    + destruct (truthy (SQS_URL cfg)); simpl.
      * destruct (SQS_URL cfg) as [url|]; simpl; eauto.
        rewrite (Hq eq_refl). simpl. eauto.
      * eauto.
  - destruct (truthy (SQS_URL cfg)); simpl.
    + destruct (SQS_URL cfg) as [url|]; simpl; eauto.
      rewrite (Hq eq_refl). simpl. eauto.
    + eauto.
Qed.

(** X7: nothing guards a second submission.  After a submission that ran
    to its end, another one, with a queue configured and reachable, is
    accepted as well and adds a message whose items member is the empty
    object. *)
Theorem checkout_twice_sends_empty_order (cfg : Config) (env1 env2 : Env)
        (form1 form2 : Form) (st st1 : State) (r1 : response) (url : string) :
  checkout_post cfg env1 form1 st = (Ok r1, st1) ->
  SQS_URL cfg = Some url -> url <> "" -> sqs_reachable env2 = true ->
  (upload_attempted form2 = true -> s3_reachable env2 = true) ->
  exists r2 st2,
    checkout_post cfg env2 form2 st1 = (Ok r2, st2)
    /\ queue_messages st2
       = List.app (queue_messages st1)
                  [(url, JObject [("name", json_of_optional_string (form_name form2));
                                  ("email", json_of_optional_string (form_email form2));
                                  ("items", JObject [])])].
Proof.
  intros H1 Hq Hne Hr Hup.
  apply checkout_post_success in H1. destruct H1 as [_ Hs1].
  assert (Hc : cart st1 = []) by now rewrite Hs1.
  destruct (@checkout_post_completes cfg env2 form2 st1 Hup (fun _ => Hr))
    as [r2 [st2 E]].
  exists r2, st2. split; [exact E|].
  apply checkout_post_success in E. destruct E as [_ Hs2].
  rewrite Hs2. simpl. rewrite Hc. unfold outgoing, sqs_client. rewrite Hq. simpl.
  destruct (String.eqb url "") eqn:Eu; [apply String.eqb_eq in Eu; contradiction|].
  reflexivity.
Qed.

Lemma checkout_twice_sends_empty_order_witness :
  exists r2 st2,
    checkout_post (example_cfg (Some example_queue)) (example_env nt example_table)
                  (mkForm None (Some "asha@example.org") None)
                  (snd (checkout_post (example_cfg (Some example_queue))
                                      (example_env posix example_table)
                                      example_form example_state))
    = (Ok r2, st2)
    /\ queue_messages st2
       = List.app
           (queue_messages (snd (checkout_post (example_cfg (Some example_queue))
                                               (example_env posix example_table)
                                               example_form example_state)))
           [(example_queue,
             JObject [("name", JNull); ("email", JString "asha@example.org");
                      ("items", JObject [])])].
Proof.
  apply (@checkout_twice_sends_empty_order
           (example_cfg (Some example_queue))
           (example_env posix example_table) (example_env nt example_table)
           example_form (mkForm None (Some "asha@example.org") None)
           example_state _ _ example_queue eq_refl eq_refl).
  - discriminate.
  - reflexivity.
  - discriminate.
Defined.

(* ------------------------------------------------------------------ *)
(** ** Adding to the cart, repeatedly *)

Lemma add_times_quantity (n : nat) (pid : Z) :
  forall st,
    PyDict.get_default (cart (add_times n pid st)) pid 0
    = PyDict.get_default (cart st) pid 0 + Z.of_nat n.
Proof.
  induction n as [|n IH]; intros st.
  - simpl. lia.
  - cbn [add_times]. rewrite IH. simpl.
    unfold PyDict.get_default at 1. rewrite PyDictFacts.get_set_same. lia.
Qed.

Lemma add_times_other (n : nat) (pid k : Z) :
  k <> pid ->
  forall st, PyDict.get (cart (add_times n pid st)) k = PyDict.get (cart st) k.
Proof.
  intros Hk. induction n as [|n IH]; intros st; auto.
  cbn [add_times]. rewrite IH. simpl. now apply PyDictFacts.get_set_other.
Qed.

Lemma add_times_get (n : nat) (pid : Z) :
  forall st q,
    PyDict.get (cart st) pid = Some q ->
    PyDict.get (cart (add_times n pid st)) pid = Some (q + Z.of_nat n).
Proof.
  induction n as [|n IH]; intros st q Hq.
  - simpl. rewrite Hq. f_equal. lia.
  - cbn [add_times]. rewrite (IH _ (q + 1)).
    + f_equal. lia.
    + simpl. rewrite PyDictFacts.get_set_same.
      unfold PyDict.get_default. now rewrite Hq.
Qed.

(** X8: [n] additions of one product, [n] at least one, leave its entry at
    the quantity it had (zero when it had none) plus [n], and the entry of
    every other product as it was. *)
Theorem add_times_accumulates (n : nat) (pid : Z) (st : State) :
  (0 < n)%nat ->
  PyDict.get (cart (add_times n pid st)) pid
    = Some (PyDict.get_default (cart st) pid 0 + Z.of_nat n)
  /\ forall k, k <> pid ->
       PyDict.get (cart (add_times n pid st)) k = PyDict.get (cart st) k.
Proof.
  intros Hn. split; [|intros k Hk; now apply add_times_other].
  destruct n as [|n]; [lia|]. cbn [add_times].
  rewrite (@add_times_get n pid _ (PyDict.get_default (cart st) pid 0 + 1)).
  - f_equal. lia.
  - simpl. apply PyDictFacts.get_set_same.
Qed.

Lemma add_times_accumulates_witness :
  PyDict.get (cart (add_times 3 1 example_state)) 1 = Some 5
  /\ PyDict.get (cart (add_times 3 1 example_state)) 3 = Some 1.
Proof.
  destruct (@add_times_accumulates 3 1 example_state) as [H1 H2];
    [repeat constructor|].
  split; [exact H1|]. rewrite H2; [reflexivity|discriminate].
Defined.

(** X9: a new product is appended after the entries already in the cart
    and a product already there keeps its place, so the cart keeps the
    order in which its products were first added. *)
Theorem add_to_cart_keeps_order (pid : Z) (st : State) :
  PyDict.keys (cart (snd (add_to_cart pid st)))
  = if PyDict.mem (cart st) pid
    then PyDict.keys (cart st)
    else List.app (PyDict.keys (cart st)) [pid].
Proof. simpl. apply PyDictFacts.keys_set. Qed.

(* ------------------------------------------------------------------ *)
(** ** The cart page, line by line *)



(** X11: with the database raising, the listing and the detail page fail
    with the database error; the cart page fails as soon as the cart has
    an entry, and is served, empty, when the cart has none; additions and
    the checkout form are served as ever.  None of the failures changes
    the state. *)
Theorem database_down (cfg : Config) (env : Env) (st : State) :
  products_table env = None ->
  home cfg env st = (Raise (RemoteServiceError ParameterStoreOrDatabase), st)
  /\ (forall pid,
        product_page cfg env pid st
        = (Raise (RemoteServiceError ParameterStoreOrDatabase), st))
  /\ view_cart cfg env st
     = (match cart st with
        | [] => Ok (Rendered (cart_html [] 0%Q))
        | _ :: _ => Raise (RemoteServiceError ParameterStoreOrDatabase)
        end, st)
  /\ (forall pid, fst (add_to_cart pid st) = Ok (Redirect "/cart"))
  /\ checkout cfg env None st = (Ok (Rendered checkout_html), st).
Proof.
  intros Ht. unfold_handler. rewrite Ht. repeat split.
  destruct (cart st) as [|[k q] rest]; simpl; auto.
  unfold bind, get_product, raise. now rewrite Ht.
Qed.

Lemma database_down_witness :
  view_cart (example_cfg None) (failing_env false true true) example_state
  = (Raise (RemoteServiceError ParameterStoreOrDatabase), example_state)
  /\ view_cart (example_cfg None) (failing_env false true true) initial_state
     = (Ok (Rendered (cart_html [] 0%Q)), initial_state).
Proof.
  split.
  - apply (proj1 (proj2 (proj2 (@database_down (example_cfg None)
             (failing_env false true true) example_state eq_refl)))).
  - apply (proj1 (proj2 (proj2 (@database_down (example_cfg None)
             (failing_env false true true) initial_state eq_refl)))).
Defined.

(* ------------------------------------------------------------------ *)
(** ** Rows on the listing and the detail page *)

Lemma link_or_placeholder_shown (cfg : Config) (env : Env) (row : Product) :
  shown_as cfg env row (link_or_placeholder cfg env row).
Proof.
  unfold shown_as, link_or_placeholder, presigned_get_url.
  now destruct (truthy (image_url row)).
Qed.

(** X12: with the database answering, the listing shows the rows of the
    table, as many and in the same order, and the detail page shows the
    first row carrying the requested id.  A row is shown with its id, name
    and price unchanged and with its image reference replaced by the link
    signed for its key, valid for 3600 seconds, when it has a key, and by
    the placeholder otherwise. *)
Theorem pages_show_rows (cfg : Config) (env : Env) (rows : list Product)
        (st : State) :
  products_table env = Some rows ->
  (exists shown,
     home cfg env st = (Ok (Rendered (index_html shown)), st)
     /\ Forall2 (shown_as cfg env) rows shown)
  /\ (forall pid row,
        find (fun r => Z.eqb (id r) pid) rows = Some row ->
        exists shown,
          product_page cfg env pid st = (Ok (Rendered (product_html shown)), st)
          /\ shown_as cfg env row shown).
Proof.
  intros Ht. split.
  - exists (map (link_or_placeholder cfg env) rows). split.
    + unfold_handler. now rewrite Ht.
    + clear Ht. induction rows as [|r rows IH]; simpl; constructor; auto.
      apply link_or_placeholder_shown.
  - intros pid row F. exists (link_or_placeholder cfg env row). split.
    + unfold_handler. now rewrite Ht, F.
    + apply link_or_placeholder_shown.
Qed.

Lemma pages_show_rows_witness :
  (exists shown,
     home (example_cfg None) (example_env posix example_table) initial_state
     = (Ok (Rendered (index_html shown)), initial_state)
     /\ Forall2 (shown_as (example_cfg None) (example_env posix example_table))
                example_table shown)
  /\ exists shown,
       product_page (example_cfg None) (example_env posix example_table) 3
                    initial_state
       = (Ok (Rendered (product_html shown)), initial_state)
       /\ shown_as (example_cfg None) (example_env posix example_table)
                   (mkProduct 3 "pen" (1 # 1) None) shown.
Proof.
  destruct (@pages_show_rows (example_cfg None) (example_env posix example_table)
              example_table initial_state eq_refl) as [H1 H2].
  split; [exact H1|]. apply H2. reflexivity.
Defined.

(* ------------------------------------------------------------------ *)
(** ** What a sequence of requests leaves behind *)

Lemma attachment_confined (cfg : Config) (env : Env) (form : Form) :
  Forall (fun o => fst (fst o) = BUCKET cfg /\ safe_upload_key (snd (fst o)))
         (attachment cfg env form).
Proof.
  unfold attachment.
  destruct (files_image form) as [f|]; [destruct (nonempty (filename f))|];
    repeat constructor. simpl. apply upload_key_safe.
Qed.

Lemma attachment_length (cfg : Config) (env : Env) (form : Form) :
  (List.length (attachment cfg env form) <= 1)%nat.
Proof.
  unfold attachment.
  destruct (files_image form) as [f|]; [destruct (nonempty (filename f))|];
    simpl; lia.
Qed.

Lemma outgoing_addressed (cfg : Config) (form : Form) (d : PyDict.t) :
  Forall (fun m => SQS_URL cfg = Some (fst m) /\ fst m <> "")
         (outgoing cfg form d)
  /\ (List.length (outgoing cfg form d) <= 1)%nat.
Proof.
  unfold outgoing, sqs_client.
  destruct (SQS_URL cfg) as [url|]; simpl; [|split; [constructor|lia]].
  destruct (String.eqb url "") eqn:E; simpl; split; try constructor; try lia; auto.
  split; [reflexivity|]. simpl. now apply String.eqb_neq.
Qed.

(** What a submission adds to storage and to the queue, however it ends. *)
Lemma checkout_post_effects (cfg : Config) (env : Env) (form : Form) (st : State) :
  exists objs msgs,
    bucket_objects (snd (checkout_post cfg env form st))
    = List.app (bucket_objects st) objs
    /\ queue_messages (snd (checkout_post cfg env form st))
       = List.app (queue_messages st) msgs
    /\ (objs = [] \/ objs = attachment cfg env form)
    /\ (msgs = [] \/ msgs = outgoing cfg form (cart st)).
Proof.
  checkout_cases cfg env form;
    try (exists [(BUCKET cfg, upload_key env f, stream f)], [(url, order_message form (cart st))];
         simpl; now auto);
    try (exists [(BUCKET cfg, upload_key env f, stream f)], [];
         simpl; rewrite ?app_nil_r; now auto);
    try (exists [], [(url, order_message form (cart st))];
         simpl; rewrite ?app_nil_r; now auto);
    exists [], []; simpl; rewrite ?app_nil_r; auto.
Qed.

Lemma confined_effects_nil (cfg : Config) (n : nat) : confined_effects cfg n [] [].
Proof.
  unfold confined_effects. split; [|split; [|split]];
    try constructor; simpl; lia.
Qed.

Lemma confined_effects_app (cfg : Config) (n m : nat)
      (objs1 objs2 : list (string * string * string))
      (msgs1 msgs2 : list (string * json)) :
  confined_effects cfg n objs1 msgs1 ->
  confined_effects cfg m objs2 msgs2 ->
  confined_effects cfg (n + m) (List.app objs1 objs2) (List.app msgs1 msgs2).
Proof.
  intros [A1 [B1 [C1 D1]]] [A2 [B2 [C2 D2]]].
  unfold confined_effects. split; [|split; [|split]];
    try (apply Forall_app; now split);
    rewrite length_app; lia.
Qed.

Lemma handle_effects (cfg : Config) (env : Env) (r : request) (st : State) :
  exists objs msgs,
    bucket_objects (snd (handle cfg env r st)) = List.app (bucket_objects st) objs
    /\ queue_messages (snd (handle cfg env r st)) = List.app (queue_messages st) msgs
    /\ confined_effects cfg (if is_checkout_submission r then 1 else 0)
                        objs msgs.
Proof.
  assert (submission : forall form,
            exists objs msgs,
              bucket_objects (snd (checkout_post cfg env form st))
              = List.app (bucket_objects st) objs
              /\ queue_messages (snd (checkout_post cfg env form st))
                 = List.app (queue_messages st) msgs
              /\ confined_effects cfg 1 objs msgs).
  { intros form.
    destruct (checkout_post_effects cfg env form st)
      as [objs [msgs [Ho [Hm [Hobj Hmsg]]]]].
    exists objs, msgs. split; [exact Ho|]. split; [exact Hm|].
    destruct (outgoing_addressed cfg form (cart st)) as [Ha Hl].
    pose proof (attachment_confined cfg env form) as Hc.
    pose proof (attachment_length cfg env form) as Hn.
    unfold confined_effects. split; [|split; [|split]].
    - destruct Hobj as [->| ->]; [constructor|assumption].
    - destruct Hmsg as [->| ->]; [constructor|assumption].
    - destruct Hobj as [->| ->]; [simpl; lia|assumption].
    - destruct Hmsg as [->| ->]; [simpl; lia|assumption]. }
  destruct r; simpl;
    try (exists [], []; rewrite ?home_state, ?product_page_state, ?view_cart_state,
                        ?app_nil_r;
         split; [reflexivity|]; split; [reflexivity|];
         apply confined_effects_nil);
    apply submission.
Qed.

(** X13: whatever the requests and their surroundings, a run only ever
    appends to the storage log and to the queue log.  Every object it adds
    is in the configured bucket under a safe upload key, every message it
    adds is addressed to the configured queue URL, and it adds at most one
    of each per request that goes down the submission path of checkout,
    that is per POST or HEAD request to /checkout (so none for the other
    requests). *)
Theorem run_effects (cfg : Config) (trace : list (Env * request)) (st : State) :
  exists objs msgs,
    bucket_objects (run cfg trace st) = List.app (bucket_objects st) objs
    /\ queue_messages (run cfg trace st) = List.app (queue_messages st) msgs
    /\ confined_effects cfg (checkout_submissions trace) objs msgs.
Proof.
  revert st. induction trace as [|[env r] rest IH]; intros st.
  - exists [], []. rewrite !app_nil_r. simpl.
    split; [reflexivity|]. split; [reflexivity|]. apply confined_effects_nil.
  - destruct (handle_effects cfg env r st) as [o1 [m1 [Ho1 [Hm1 Hc1]]]].
    destruct (IH (snd (handle cfg env r st))) as [o2 [m2 [Ho2 [Hm2 Hc2]]]].
    exists (List.app o1 o2), (List.app m1 m2). simpl run.
    rewrite Ho2, Hm2, Ho1, Hm1, <- !app_assoc.
    split; [reflexivity|]. split; [reflexivity|].
    unfold checkout_submissions. simpl filter.
    replace (List.length
               (if is_checkout_submission r
                then (env, r)
                     :: filter (fun er => is_checkout_submission (snd er)) rest
                else filter (fun er => is_checkout_submission (snd er)) rest))
      with ((if is_checkout_submission r then 1 else 0)
            + checkout_submissions rest)%nat
      by (unfold checkout_submissions; now destruct (is_checkout_submission r)).
    now apply confined_effects_app.
Qed.

(* ------------------------------------------------------------------ *)
(** ** The message body *)

(** X14: the body put on the queue determines the order: two submissions
    whose bodies are equal had the same name, the same email and the same
    cart content, entry for entry and in the same order. *)
Theorem order_message_determines_order (form1 form2 : Form) (d1 d2 : PyDict.t) :
  order_message form1 d1 = order_message form2 d2 ->
  form_name form1 = form_name form2
  /\ form_email form1 = form_email form2
  /\ d1 = d2.
Proof.
  unfold order_message. intros H. inversion H as [[Hn He Hd]].
  assert (inj : forall a b, json_of_optional_string a = json_of_optional_string b
                            -> a = b).
  { intros [a|] [b|] E; simpl in E; congruence. }
  repeat split; auto.
  apply json_of_dict_injective. unfold json_of_dict. now rewrite Hd.
Qed.

Lemma order_message_determines_order_witness :
  form_name example_form = form_name example_form
  /\ form_email example_form = form_email example_form
  /\ [(1, 2); (3, 1)] = [(1, 2); (3, 1)].
Proof.
  apply (@order_message_determines_order example_form example_form
           [(1, 2); (3, 1)] [(1, 2); (3, 1)]).
  reflexivity.
Defined.

(* ------------------------------------------------------------------ *)
(** ** More on sanitised file names *)

Module WerkzeugShape.
Import Werkzeug.
Local Open Scope char_scope.

Ltac by_cases_on c :=
  destruct c as [[] [] [] [] [] [] [] []]; simpl; intros;
  try discriminate; try reflexivity.

Lemma filename_char_is_ascii (c : ascii) :
  filename_char c = true -> N.ltb (N_of_ascii c) 128 = true.
Proof. by_cases_on c. Qed.

Lemma filename_char_not_space (c : ascii) :
  filename_char c = true -> isspace c = false.
Proof. by_cases_on c. Qed.

Lemma filename_char_not_sep (c : ascii) (o : os) :
  filename_char c = true ->
  Ascii.eqb c (os_sep o) = false /\ Ascii.eqb c "/" = false.
Proof. destruct o; by_cases_on c; split; reflexivity. Qed.

Lemma vanishing_leaves_dots (c : ascii) :
  vanishing c = true -> filename_char c = true -> is_dot_or_underscore c = true.
Proof. by_cases_on c. Qed.

Lemma encode_ascii_ignore_safe (s : list ascii) :
  Forall (fun c => filename_char c = true) s ->
  encode_ascii_ignore (map N_of_ascii s) = s.
Proof.
  unfold encode_ascii_ignore. induction 1 as [|c r Hc Hr IH]; simpl; auto.
  rewrite (filename_char_is_ascii c Hc). simpl.
  now rewrite ascii_N_embedding, IH.
Qed.

Lemma replace_char_absent (sep : ascii) (s : list ascii) :
  Forall (fun c => Ascii.eqb c sep = false) s -> replace_char sep s = s.
Proof.
  unfold replace_char. induction 1 as [|c r Hc Hr IH]; simpl; auto.
  now rewrite Hc, IH.
Qed.

Lemma split_whitespace_one_word (s : list ascii) :
  Forall (fun c => isspace c = false) s ->
  forall cur,
    split_whitespace cur s
    = match List.app cur s with
      | [] => []
      | w => [w]
      end.
Proof.
  induction 1 as [|c r Hc Hr IH]; intros cur; simpl.
  - rewrite app_nil_r. now destruct cur.
  - rewrite Hc, IH, <- app_assoc. reflexivity.
Qed.

Lemma filter_all (A : Type) (f : A -> bool) (s : list A) :
  Forall (fun c => f c = true) s -> filter f s = s.
Proof.
  induction 1 as [|c r Hc Hr IH]; simpl; auto. now rewrite Hc, IH.
Qed.

Lemma Forall_split_whitespace (P : ascii -> Prop) (s : list ascii) :
  Forall P s ->
  forall cur, Forall P cur -> Forall (Forall P) (split_whitespace cur s).
Proof.
  induction 1 as [|c r Hc Hr IH]; intros cur Hcur; simpl.
  - destruct cur; [constructor|constructor; [assumption|constructor]].
  - destruct (isspace c).
    + destruct cur; [|constructor; [assumption|]]; apply IH; constructor.
    + apply IH. apply Forall_app. split; auto.
Qed.

Lemma Forall_join (P : ascii -> Prop) (sep : list ascii)
      (words : list (list ascii)) :
  Forall P sep -> Forall (Forall P) words -> Forall P (join sep words).
Proof.
  intros Hsep. induction 1 as [|w ws Hw Hws IH]; simpl; auto.
  destruct ws as [|w' ws']; auto.
  apply Forall_app. split; auto. apply Forall_app. split; auto.
Qed.

Lemma Forall_replace_char (P : ascii -> Prop) (sep : ascii) (s : list ascii) :
  P " " -> Forall P s -> Forall P (replace_char sep s).
Proof.
  intros Hsp. unfold replace_char.
  induction 1 as [|c r Hc Hr IH]; simpl; constructor; auto.
  now destruct (Ascii.eqb c sep).
Qed.

Lemma lstrip_all (s : list ascii) :
  Forall (fun c => is_dot_or_underscore c = true) s -> lstrip s = [].
Proof.
  induction 1 as [|c r Hc Hr IH]; simpl; auto. now rewrite Hc.
Qed.

Lemma lstrip_fixed (s : list ascii) :
  match s with
  | [] => True
  | c :: _ => is_dot_or_underscore c = false
  end ->
  lstrip s = s.
Proof. destruct s as [|c r]; simpl; auto. now intros ->. Qed.

Lemma strip_last (s : list ascii) :
  match rev (strip s) with
  | [] => True
  | c :: _ => is_dot_or_underscore c = false
  end.
Proof.
  unfold strip. rewrite rev_involutive. apply WerkzeugFacts.lstrip_head.
Qed.

Lemma device_file_prefixed (s : list ascii) : is_device_file ("_" :: s) = false.
Proof. reflexivity. Qed.

End WerkzeugShape.

Lemma already_safe_parts (s : list ascii) :
  already_safe s = true ->
  Forall (fun c => Werkzeug.filename_char c = true) s
  /\ match s with
     | [] => True
     | c :: _ => Werkzeug.is_dot_or_underscore c = false
     end
  /\ match rev s with
     | [] => True
     | c :: _ => Werkzeug.is_dot_or_underscore c = false
     end.
Proof.
  unfold already_safe. intros H.
  apply andb_prop in H. destruct H as [H H3].
  apply andb_prop in H. destruct H as [H1 H2].
  split; [|split].
  - apply Forall_forall. now apply forallb_forall.
  - destruct s as [|c r]; auto. now apply negb_true_iff in H2.
  - destruct (rev s) as [|c r]; auto. now apply negb_true_iff in H3.
Qed.

Lemma strip_fixed (s : list ascii) :
  match s with
  | [] => True
  | c :: _ => Werkzeug.is_dot_or_underscore c = false
  end ->
  match rev s with
  | [] => True
  | c :: _ => Werkzeug.is_dot_or_underscore c = false
  end ->
  Werkzeug.strip s = s.
Proof.
  intros H1 H2. unfold Werkzeug.strip.
  rewrite (WerkzeugShape.lstrip_fixed s H1).
  rewrite (WerkzeugShape.lstrip_fixed (rev s) H2).
  apply rev_involutive.
Qed.

(** X15: a name that is already made of letters, digits, dots, underscores
    and hyphens only, with no dot or underscore at either end, comes back
    unchanged, provided the normaliser leaves it alone and, on Windows, it
    is not a device name. *)
Theorem secure_filename_keeps_safe_names (env : Env) (s : list ascii) :
  already_safe s = true ->
  unicodedata_normalize_NFKD env (map N_of_ascii s) = map N_of_ascii s ->
  (os_name env = nt -> Werkzeug.is_device_file s = false) ->
  Werkzeug.secure_filename env (map N_of_ascii s) = s.
Proof.
  intros Hs Hn Hd.
  destruct (already_safe_parts s Hs) as [Hc [Hh Hl]].
  unfold Werkzeug.secure_filename.
  rewrite Hn, (WerkzeugShape.encode_ascii_ignore_safe Hc).
  assert (R1 : Werkzeug.replace_char (Werkzeug.os_sep (os_name env)) s = s).
  { apply WerkzeugShape.replace_char_absent.
    eapply Forall_impl; [|exact Hc].
    intros c H. apply (WerkzeugShape.filename_char_not_sep c (os_name env) H). }
  assert (R2 : Werkzeug.replace_char "/"%char s = s).
  { apply WerkzeugShape.replace_char_absent.
    eapply Forall_impl; [|exact Hc].
    intros c H. apply (WerkzeugShape.filename_char_not_sep c posix H). }
  rewrite R1.
  assert (R3 : match Werkzeug.os_altsep (os_name env) with
               | Some sep => Werkzeug.replace_char sep s
               | None => s
               end = s) by (destruct (os_name env); simpl; auto).
  rewrite R3.
  rewrite WerkzeugShape.split_whitespace_one_word
    by (eapply Forall_impl; [|exact Hc];
        apply WerkzeugShape.filename_char_not_space).
  destruct s as [|c r]; [now destruct (os_name env)|].
  cbn [List.app Werkzeug.join].
  rewrite (WerkzeugShape.filter_all _ Hc), (strip_fixed (c :: r) Hh Hl).
  destruct (os_name env); [reflexivity|].
  now rewrite (WerkzeugFacts.not_reserved_not_listed env _ (Hd eq_refl)).
Qed.

Lemma secure_filename_keeps_safe_names_witness :
  Werkzeug.secure_filename (example_env nt example_table)
    (map N_of_ascii (list_ascii_of_string "holiday-2024_v2.tar.gz"))
  = list_ascii_of_string "holiday-2024_v2.tar.gz".
Proof.
  apply (@secure_filename_keeps_safe_names (example_env nt example_table)
           (list_ascii_of_string "holiday-2024_v2.tar.gz")).
  - reflexivity.
  - reflexivity.
  - intros _. reflexivity.
Defined.

(** X16: whatever the submitted name, the platform and the normaliser, the
    sanitised name is made of safe characters only, does not begin with a
    dot, does not end with a dot or an underscore and, on Windows, is not
    (with or without an extension) a device name that the installed release
    of the library lists, whichever of the reserved names that release
    lists. *)
Theorem secure_filename_shape (env : Env) (s : list N) :
  Forall (fun c => Werkzeug.filename_char c = true) (Werkzeug.secure_filename env s)
  /\ match Werkzeug.secure_filename env s with
     | [] => True
     | c :: _ => c <> "."%char
     end
  /\ match rev (Werkzeug.secure_filename env s) with
     | [] => True
     | c :: _ => Werkzeug.is_dot_or_underscore c = false
     end
  /\ (os_name env = nt ->
      Werkzeug.is_listed_device_file env (Werkzeug.secure_filename env s) = false).
Proof.
  split; [apply WerkzeugFacts.secure_filename_chars|].
  split; [apply WerkzeugFacts.secure_filename_head|].
  unfold Werkzeug.secure_filename.
  match goal with
  | |- context [Werkzeug.strip (filter Werkzeug.filename_char ?l)] =>
      pose proof (WerkzeugShape.strip_last (filter Werkzeug.filename_char l)) as Hl;
      destruct (Werkzeug.strip (filter Werkzeug.filename_char l)) as [|c r] eqn:E
  end.
  - split; [now destruct (os_name env)|].
    intros ->. apply WerkzeugFacts.not_reserved_not_listed. reflexivity.
  - destruct (os_name env).
    + split; [exact Hl|discriminate].
    + destruct (Werkzeug.is_listed_device_file env (c :: r)) eqn:D.
      * split;
          [|intros _; apply WerkzeugFacts.not_reserved_not_listed,
                        WerkzeugShape.device_file_prefixed].
        change ("_"%char :: c :: r) with (List.app ["_"%char] (c :: r)).
        rewrite rev_app_distr.
        destruct (rev (c :: r)) as [|c' r'] eqn:R; [|exact Hl].
        apply (f_equal (@rev ascii)) in R. rewrite rev_involutive in R.
        discriminate.
      * split; [exact Hl|auto].
Qed.

Lemma secure_filename_vanishes (env : Env) (s : list N) :
  forallb vanishing
          (Werkzeug.encode_ascii_ignore (unicodedata_normalize_NFKD env s)) = true ->
  Werkzeug.secure_filename env s = [].
Proof.
  intros H. unfold Werkzeug.secure_filename.
  set (x := Werkzeug.encode_ascii_ignore (unicodedata_normalize_NFKD env s)) in *.
  assert (Hx : Forall (fun c => vanishing c = true) x).
  { apply Forall_forall. now apply forallb_forall. }
  set (y := match Werkzeug.os_altsep (os_name env) with
            | Some sep =>
                Werkzeug.replace_char sep
                  (Werkzeug.replace_char (Werkzeug.os_sep (os_name env)) x)
            | None => Werkzeug.replace_char (Werkzeug.os_sep (os_name env)) x
            end).
  assert (Hy : Forall (fun c => vanishing c = true) y).
  { unfold y. destruct (Werkzeug.os_altsep (os_name env));
      repeat apply WerkzeugShape.Forall_replace_char; auto. }
  assert (Hj : Forall (fun c => vanishing c = true)
                      (Werkzeug.join ["_"%char] (Werkzeug.split_whitespace [] y))).
  { apply WerkzeugShape.Forall_join.
    - repeat constructor.
    - apply WerkzeugShape.Forall_split_whitespace; auto. }
  assert (Hf : Forall (fun c => Werkzeug.is_dot_or_underscore c = true)
                      (filter Werkzeug.filename_char
                         (Werkzeug.join ["_"%char] (Werkzeug.split_whitespace [] y)))).
  { apply Forall_forall. intros c Hc. apply filter_In in Hc.
    destruct Hc as [Hin Hfc]. rewrite Forall_forall in Hj.
    apply WerkzeugShape.vanishing_leaves_dots; auto. }
  unfold Werkzeug.strip. rewrite (WerkzeugShape.lstrip_all Hf). simpl.
  now destruct (os_name env).
Qed.

Lemma checkout_post_uploads (cfg : Config) (env : Env) (form : Form)
      (f : FileStorage) (st : State) :
  files_image form = Some f -> nonempty (filename f) = true ->
  s3_reachable env = true ->
  In (BUCKET cfg, upload_key env f, stream f)
     (bucket_objects (snd (checkout_post cfg env form st))).
Proof.
  intros Hf Hn Hs. unfold_handler. rewrite Hf, Hn, Hs. simpl.
  destruct (sqs_client cfg) as [url|]; simpl;
    [destruct (sqs_reachable env); simpl|];
    apply in_or_app; right; now left.
Qed.

(** X17: a file name that leaves nothing behind (after normalisation it
    consists of whitespace, dots, underscores and characters outside the
    safe set, the separators among them) is sanitised to the empty name.
    The handler does not check for that: with storage reachable the file
    is written all the same, to the key "uploads/" itself. *)
Theorem vanishing_name_stored_at_prefix (cfg : Config) (env : Env) (form : Form)
        (f : FileStorage) (st : State) :
  files_image form = Some f -> nonempty (filename f) = true ->
  forallb vanishing
          (Werkzeug.encode_ascii_ignore
             (unicodedata_normalize_NFKD env (filename f))) = true ->
  s3_reachable env = true ->
  Werkzeug.secure_filename env (filename f) = []
  /\ In (BUCKET cfg, "uploads/", stream f)
        (bucket_objects (snd (checkout_post cfg env form st))).
Proof.
  intros Hf Hn Hv Hs.
  pose proof (secure_filename_vanishes env (filename f) Hv) as E.
  split; [exact E|].
  pose proof (@checkout_post_uploads cfg env form f st Hf Hn Hs) as Hin.
  unfold upload_key in Hin. rewrite E in Hin. exact Hin.
Qed.

Lemma vanishing_name_stored_at_prefix_witness :
  Werkzeug.secure_filename (example_env posix example_table) (pystr "../ ..") = []
  /\ In ("shop-bucket", "uploads/", "bytes")
        (bucket_objects
           (snd (checkout_post (example_cfg None) (example_env posix example_table)
                   (mkForm None None (Some (mkFile (pystr "../ ..") "bytes")))
                   example_state))).
Proof.
  apply (@vanishing_name_stored_at_prefix (example_cfg None)
           (example_env posix example_table)
           (mkForm None None (Some (mkFile (pystr "../ ..") "bytes")))
           (mkFile (pystr "../ ..") "bytes") example_state);
    reflexivity.
Defined.

(* ------------------------------------------------------------------ *)
(** ** The database accessors, call by call *)

Module RemoteFacts.
Import Remote.

Ltac step :=
  unfold get_product, get_all_products, execute, get_db_connection,
    get_parameter, bind, emit, ret, fail.

(** The calls of a lookup whose connection is accepted. *)
Lemma connection_calls (b : Backend) (log : list call) (h u p d : string) :
  environ_get (parameters b) "/ecommerce/db/host" = Some h ->
  environ_get (parameters b) "/ecommerce/db/username" = Some u ->
  environ_get (parameters b) "/ecommerce/db/password" = Some p ->
  environ_get (parameters b) "/ecommerce/db/databasename" = Some d ->
  get_db_connection b log
  = (if accepts b h u p d then inl tt else inr ConnectionFailed,
     List.app log [GetParameter "/ecommerce/db/host";
                   GetParameter "/ecommerce/db/username";
                   GetParameter "/ecommerce/db/password";
                   GetParameter "/ecommerce/db/databasename";
                   Connect h u p d]).
Proof.
  intros Hh Hu Hp Hd. step. rewrite Hh, Hu, Hp, Hd.
  rewrite <- !app_assoc. simpl. now destruct (accepts b h u p d).
Qed.

End RemoteFacts.

(** X18: the four database parameters are fetched in the order host,
    username, password, database name.  When one of them is not in the
    store, the fetches stop at the first missing one, the error names it,
    and no connection is attempted. *)
Theorem missing_parameter_prevents_connection (b : Remote.Backend)
        (name : string) (log : list Remote.call) :
  In name Remote.db_parameter_names ->
  environ_get (Remote.parameters b) name = None ->
  exists before missing after,
    Remote.db_parameter_names = List.app before (missing :: after)
    /\ Forall (fun n => environ_get (Remote.parameters b) n <> None) before
    /\ environ_get (Remote.parameters b) missing = None
    /\ Remote.get_db_connection b log
       = (inr (Remote.ParameterNotFound missing),
          List.app log (map Remote.GetParameter (List.app before [missing]))).
Proof.
  intros Hin Hnone.
  destruct (environ_get (Remote.parameters b) "/ecommerce/db/host") as [h|] eqn:Hh.
  2:{ exists [], "/ecommerce/db/host",
        ["/ecommerce/db/username"; "/ecommerce/db/password";
         "/ecommerce/db/databasename"].
      repeat split; auto. RemoteFacts.step. now rewrite Hh. }
  destruct (environ_get (Remote.parameters b) "/ecommerce/db/username") as [u|] eqn:Hu.
  2:{ exists ["/ecommerce/db/host"], "/ecommerce/db/username",
        ["/ecommerce/db/password"; "/ecommerce/db/databasename"].
      repeat split; auto.
      - repeat constructor. congruence.
      - RemoteFacts.step. rewrite Hh, Hu. now rewrite <- !app_assoc. }
  destruct (environ_get (Remote.parameters b) "/ecommerce/db/password") as [p|] eqn:Hp.
  2:{ exists ["/ecommerce/db/host"; "/ecommerce/db/username"],
        "/ecommerce/db/password", ["/ecommerce/db/databasename"].
      repeat split; auto.
      - repeat constructor; congruence.
      - RemoteFacts.step. rewrite Hh, Hu, Hp. now rewrite <- !app_assoc. }
  destruct (environ_get (Remote.parameters b) "/ecommerce/db/databasename") as [d|] eqn:Hd.
  2:{ exists ["/ecommerce/db/host"; "/ecommerce/db/username";
               "/ecommerce/db/password"],
        "/ecommerce/db/databasename", [].
      repeat split; auto.
      - repeat constructor; congruence.
      - RemoteFacts.step. rewrite Hh, Hu, Hp, Hd. now rewrite <- !app_assoc. }
  exfalso. simpl in Hin.
  destruct Hin as [<-|[<-|[<-|[<-|[]]]]]; congruence.
Qed.

Lemma missing_parameter_prevents_connection_witness :
  exists before missing after,
    Remote.db_parameter_names = List.app before (missing :: after)
    /\ Forall (fun n =>
                 environ_get
                   (Remote.parameters
                      (example_backend [("/ecommerce/db/host", "db.internal")] true))
                   n <> None) before
    /\ environ_get
         (Remote.parameters
            (example_backend [("/ecommerce/db/host", "db.internal")] true))
         missing = None
    /\ Remote.get_db_connection
         (example_backend [("/ecommerce/db/host", "db.internal")] true) []
       = (inr (Remote.ParameterNotFound missing),
          List.app [] (map Remote.GetParameter (List.app before [missing]))).
Proof.
  apply (@missing_parameter_prevents_connection
           (example_backend [("/ecommerce/db/host", "db.internal")] true)
           "/ecommerce/db/password" []).
  - simpl. auto.
  - reflexivity.
Defined.

Module RemoteResults.
Import Remote.

Lemma answers_true (b : Backend) (q : query) :
  answers b q = true ->
  exists h u p d,
    environ_get (parameters b) "/ecommerce/db/host" = Some h
    /\ environ_get (parameters b) "/ecommerce/db/username" = Some u
    /\ environ_get (parameters b) "/ecommerce/db/password" = Some p
    /\ environ_get (parameters b) "/ecommerce/db/databasename" = Some d
    /\ accepts b h u p d = true
    /\ executes b q = true.
Proof.
  unfold answers.
  destruct (environ_get (parameters b) "/ecommerce/db/host") as [h|];
    [|discriminate].
  destruct (environ_get (parameters b) "/ecommerce/db/username") as [u|];
    [|discriminate].
  destruct (environ_get (parameters b) "/ecommerce/db/password") as [p|];
    [|discriminate].
  destruct (environ_get (parameters b) "/ecommerce/db/databasename") as [d|];
    [|discriminate].
  intros H. apply andb_prop in H. destruct H as [Ha He].
  exists h, u, p, d. auto 10.
Qed.

(** The result of a query, through either accessor's calls. *)
Lemma query_result (A : Type) (b : Backend) (q : query) (a : A) (log : list call) :
  fst (bind (get_db_connection b) (fun _ =>
       bind (execute b q) (fun _ =>
       bind (emit CloseConnection) (fun _ => ret a))) log)
  = inl a /\ answers b q = true
  \/ (exists e,
        fst (bind (get_db_connection b) (fun _ =>
             bind (execute b q) (fun _ =>
             bind (emit CloseConnection) (fun _ => ret a))) log)
        = inr e)
     /\ answers b q = false.
Proof.
  RemoteFacts.step. unfold answers.
  destruct (environ_get (parameters b) "/ecommerce/db/host") as [h|];
    [|right; split; [simpl; eauto|reflexivity]].
  destruct (environ_get (parameters b) "/ecommerce/db/username") as [u|];
    [|right; split; [simpl; eauto|reflexivity]].
  destruct (environ_get (parameters b) "/ecommerce/db/password") as [p|];
    [|right; split; [simpl; eauto|reflexivity]].
  destruct (environ_get (parameters b) "/ecommerce/db/databasename") as [d|];
    [|right; split; [simpl; eauto|reflexivity]].
  destruct (accepts b h u p d); [|right; split; [simpl; eauto|reflexivity]].
  destruct (executes b q); [left; auto|right; split; [simpl; eauto|reflexivity]].
Qed.

End RemoteResults.

(** X19: the two descriptions of the database agree.  When the handlers'
    table is the one the backend gives for a query (there when the four
    parameters are found, the connection is accepted and the query goes
    through, absent otherwise), the accessor followed call by call returns
    a result exactly when the handlers' accessor does, and the same one:
    all rows for the listing, the first row with the id (or none) for a
    lookup. *)
Theorem accessors_agree (b : Remote.Backend) (env : Env) (st : State)
        (log : list Remote.call) :
  (forall pid,
     products_table env = products_table_of b (Remote.SelectProductById pid) ->
     match fst (Remote.get_product b pid log) with
     | inl row => get_product env pid st = (Ok row, st)
     | inr _ =>
         get_product env pid st
         = (Raise (RemoteServiceError ParameterStoreOrDatabase), st)
     end)
  /\ (products_table env = products_table_of b Remote.SelectAllProducts ->
      match fst (Remote.get_all_products b log) with
      | inl rows => get_all_products env st = (Ok rows, st)
      | inr _ =>
          get_all_products env st
          = (Raise (RemoteServiceError ParameterStoreOrDatabase), st)
      end).
Proof.
  split.
  - intros pid Ht. unfold get_product, products_table_of in *.
    unfold Remote.get_product.
    destruct (RemoteResults.query_result b (Remote.SelectProductById pid)
                (find (fun r => Z.eqb (id r) pid) (Remote.rows b)) log)
      as [[E A]|[[e E] A]]; rewrite E; rewrite A in Ht; now rewrite Ht.
  - intros Ht. unfold get_all_products, products_table_of in *.
    unfold Remote.get_all_products.
    destruct (RemoteResults.query_result b Remote.SelectAllProducts
                (Remote.rows b) log)
      as [[E A]|[[e E] A]]; rewrite E; rewrite A in Ht; now rewrite Ht.
Qed.

Lemma accessors_agree_witness :
  get_product (example_env posix example_table) 2 initial_state
  = (Ok (Some (mkProduct 2 "cup" (7 # 2) (Some ""))), initial_state)
  /\ get_all_products (failing_env false true true) initial_state
     = (Raise (RemoteServiceError ParameterStoreOrDatabase), initial_state).
Proof.
  split.
  - exact (proj1 (@accessors_agree (example_backend example_parameters true)
                    (example_env posix example_table) initial_state [])
                 2 eq_refl).
  - exact (proj2 (@accessors_agree (example_backend [] true)
                    (failing_env false true true) initial_state [])
                 eq_refl).
Defined.

(** X20: nothing is kept between two database accesses.  Every lookup
    and every listing that gets its answer fetches the four parameters
    anew, in the order host, username, password, database name, opens one
    connection with the four values the parameter store holds under those
    names, runs its one query and closes the connection before
    returning. *)
Theorem answered_query_calls (b : Remote.Backend) (log : list Remote.call) :
  (forall pid,
     Remote.answers b (Remote.SelectProductById pid) = true ->
     exists h u p d,
       environ_get (Remote.parameters b) "/ecommerce/db/host" = Some h
       /\ environ_get (Remote.parameters b) "/ecommerce/db/username" = Some u
       /\ environ_get (Remote.parameters b) "/ecommerce/db/password" = Some p
       /\ environ_get (Remote.parameters b) "/ecommerce/db/databasename" = Some d
       /\ Remote.get_product b pid log
          = (inl (find (fun r => Z.eqb (id r) pid) (Remote.rows b)),
             List.app log
               [Remote.GetParameter "/ecommerce/db/host";
                Remote.GetParameter "/ecommerce/db/username";
                Remote.GetParameter "/ecommerce/db/password";
                Remote.GetParameter "/ecommerce/db/databasename";
                Remote.Connect h u p d;
                Remote.Execute (Remote.SelectProductById pid);
                Remote.CloseConnection]))
  /\ (Remote.answers b Remote.SelectAllProducts = true ->
      exists h u p d,
        environ_get (Remote.parameters b) "/ecommerce/db/host" = Some h
        /\ environ_get (Remote.parameters b) "/ecommerce/db/username" = Some u
        /\ environ_get (Remote.parameters b) "/ecommerce/db/password" = Some p
        /\ environ_get (Remote.parameters b) "/ecommerce/db/databasename" = Some d
        /\ Remote.get_all_products b log
           = (inl (Remote.rows b),
              List.app log
                [Remote.GetParameter "/ecommerce/db/host";
                 Remote.GetParameter "/ecommerce/db/username";
                 Remote.GetParameter "/ecommerce/db/password";
                 Remote.GetParameter "/ecommerce/db/databasename";
                 Remote.Connect h u p d;
                 Remote.Execute Remote.SelectAllProducts;
                 Remote.CloseConnection])).
Proof.
  split.
  - intros pid Ha.
    destruct (RemoteResults.answers_true b _ Ha)
      as [h [u [p [d [Hh [Hu [Hp [Hd [Hc He]]]]]]]]].
    exists h, u, p, d. repeat (split; [assumption|]).
    unfold Remote.get_product, Remote.bind at 1.
    rewrite (RemoteFacts.connection_calls b log Hh Hu Hp Hd), Hc.
    unfold Remote.bind, Remote.execute, Remote.emit, Remote.ret. rewrite He.
    simpl. now rewrite <- !app_assoc.
  - intros Ha.
    destruct (RemoteResults.answers_true b _ Ha)
      as [h [u [p [d [Hh [Hu [Hp [Hd [Hc He]]]]]]]]].
    exists h, u, p, d. repeat (split; [assumption|]).
    unfold Remote.get_all_products, Remote.bind at 1.
    rewrite (RemoteFacts.connection_calls b log Hh Hu Hp Hd), Hc.
    unfold Remote.bind, Remote.execute, Remote.emit, Remote.ret. rewrite He.
    simpl. now rewrite <- !app_assoc.
Qed.

Lemma answered_query_calls_witness :
  exists h u p d,
    environ_get example_parameters "/ecommerce/db/host" = Some h
    /\ environ_get example_parameters "/ecommerce/db/username" = Some u
    /\ environ_get example_parameters "/ecommerce/db/password" = Some p
    /\ environ_get example_parameters "/ecommerce/db/databasename" = Some d
    /\ Remote.get_product (example_backend example_parameters true) 3 []
       = (inl (find (fun r => Z.eqb (id r) 3) example_table),
          List.app []
            [Remote.GetParameter "/ecommerce/db/host";
             Remote.GetParameter "/ecommerce/db/username";
             Remote.GetParameter "/ecommerce/db/password";
             Remote.GetParameter "/ecommerce/db/databasename";
             Remote.Connect h u p d;
             Remote.Execute (Remote.SelectProductById 3);
             Remote.CloseConnection]).
Proof.
  apply (proj1 (@answered_query_calls (example_backend example_parameters true) [])
               3).
  reflexivity.
Defined.

(** X21: the connection is closed only on the way out of a query that went
    through.  When the parameters are found and the connection is accepted
    but the query raises, the accessor fails with the query's error and its
    calls end with the query: the connection it opened is not closed. *)
Theorem failed_query_leaves_connection_open (b : Remote.Backend) (pid : Z)
        (log : list Remote.call) (h u p d : string) :
  environ_get (Remote.parameters b) "/ecommerce/db/host" = Some h ->
  environ_get (Remote.parameters b) "/ecommerce/db/username" = Some u ->
  environ_get (Remote.parameters b) "/ecommerce/db/password" = Some p ->
  environ_get (Remote.parameters b) "/ecommerce/db/databasename" = Some d ->
  Remote.accepts b h u p d = true ->
  Remote.executes b (Remote.SelectProductById pid) = false ->
  exists calls,
    Remote.get_product b pid log
    = (inr (Remote.QueryFailed (Remote.SelectProductById pid)),
       List.app log calls)
    /\ In (Remote.Connect h u p d) calls
    /\ ~ In Remote.CloseConnection calls.
Proof.
  intros Hh Hu Hp Hd Hc He.
  exists (List.app (map Remote.GetParameter Remote.db_parameter_names)
                   [Remote.Connect h u p d;
                    Remote.Execute (Remote.SelectProductById pid)]).
  split; [|split].
  - unfold Remote.get_product, Remote.bind at 1.
    rewrite (RemoteFacts.connection_calls b log Hh Hu Hp Hd), Hc.
    unfold Remote.bind, Remote.execute, Remote.emit, Remote.fail. rewrite He.
    simpl. now rewrite <- !app_assoc.
  - simpl. auto 10.
  - simpl. intros H.
    repeat (destruct H as [H|H]; [discriminate|]). exact H.
Qed.

Lemma failed_query_leaves_connection_open_witness :
  exists calls,
    Remote.get_product (example_backend example_parameters false) 3 []
    = (inr (Remote.QueryFailed (Remote.SelectProductById 3)), List.app [] calls)
    /\ In (Remote.Connect "db.internal" "shop" "secret" "ecommerce") calls
    /\ ~ In Remote.CloseConnection calls.
Proof.
  apply (@failed_query_leaves_connection_open
           (example_backend example_parameters false) 3 []
           "db.internal" "shop" "secret" "ecommerce");
    reflexivity.
Defined.

Lemma secure_filename_shape_witness :
  Werkzeug.is_listed_device_file
    (example_env nt example_table)
    (Werkzeug.secure_filename (example_env nt example_table) (pystr "con.txt"))
  = false
  /\ Werkzeug.is_listed_device_file
       release_without_port_zero
       (Werkzeug.secure_filename release_without_port_zero (pystr "com0.txt"))
     = false.
Proof.
  split.
  - apply (proj2 (proj2 (proj2 (@secure_filename_shape
                                  (example_env nt example_table)
                                  (pystr "con.txt"))))).
    reflexivity.
  - apply (proj2 (proj2 (proj2 (@secure_filename_shape
                                  release_without_port_zero
                                  (pystr "com0.txt"))))).
    reflexivity.
Defined.

(* ------------------------------------------------------------------ *)
(** ** A HEAD request to the checkout route *)


